(** * The quota page and the collapsible preview widget

    A shallow embedding of two front-end units:

    - [CollapsibleContent] (the preview widget): a pure render function of
      its props and of its one piece of local state;
    - [QuotaPage] (src/pages/QuotaPage.tsx): the asynchronous callbacks
      [loadConfig], [loadFiles] and [refreshAllQuotas], written as resumable
      tasks that suspend at every [await].

    Definitions come first, the theorems about them follow. *)

From Stdlib Require Import ZArith Ascii String List QArith Qround DecimalString Lia.
From Stdlib Require DecimalZ DecimalPos.
From stdpp Require Import base gmap strings list.

Local Open Scope string_scope.
Local Open Scope Z_scope.

(** ** The JavaScript fragments both units rely on

    A text is the sequence of its code units, one character of [string] per
    unit; numbers that count characters are integers. *)

Module Js.

(** A thrown value, or the reason of a rejected promise. [isError] answers
    [err instanceof Error], [message] is [err.message] and [status] is
    [(err as any)?.status] (absent when [None]). *)
Record Thrown : Type := MkThrown
  { isError : bool;
    message : string;
    status : option Z }.

(** How a promise settles, and also how a [try] block ends. *)
Inductive Outcome (A : Type) : Type :=
| Resolved (a : A)
| Rejected (e : Thrown).
Arguments Resolved {A} a.
Arguments Rejected {A} e.

(** [a || b] on strings: the empty string is the only falsy one. *)
Definition or_else (a b : string) : string :=
  if String.eqb a "" then b else a.

(** The statements after one that may throw. *)
Definition bind {A B : Type} (o : Outcome A) (f : A -> Outcome B) : Outcome B :=
  match o with
  | Resolved a => f a
  | Rejected e => Rejected e
  end.

(** [try { o } catch (err) { h err }] for a block without suspension. *)
Definition catch {A : Type} (o : Outcome A) (h : Thrown -> Outcome A) : Outcome A :=
  match o with
  | Resolved a => Resolved a
  | Rejected e => h e
  end.

(** [Promise.all]: the list of values when every promise resolves, the
    first rejection otherwise (list order stands for arrival order). *)
Fixpoint promise_all {A : Type} (os : list (Outcome A)) : Outcome (list A) :=
  match os with
  | [] => Resolved []
  | Resolved a :: rest =>
      match promise_all rest with
      | Resolved l => Resolved (a :: l)
      | Rejected e => Rejected e
      end
  | Rejected e :: _ => Rejected e
  end.

(** [s.substring(start, end)] for integer arguments: both bounds are clamped
    to [0 .. s.length] and swapped when out of order. *)
Definition substring (s : string) (start end_ : Z) : string :=
  let len := Z.of_nat (String.length s) in
  let a := Z.min (Z.max start 0) len in
  let b := Z.min (Z.max end_ 0) len in
  let lo := Z.min a b in
  let hi := Z.max a b in
  String.substring (Z.to_nat lo) (Z.to_nat (hi - lo)) s.

(** [Math.ceil(n / d)] for integers [n] and [d]: the division is the exact
    one, the rounding goes up. *)
Definition ceil_div (n d : Z) : Z :=
  Qceiling (Qdiv (inject_Z n) (inject_Z d)).

(** A number rendered as a text child: its decimal digits. *)
Definition number_text (n : Z) : string :=
  NilZero.string_of_int (Z.to_int n).

End Js.

(** ** CollapsibleContent *)

Module CollapsibleWidget.

(** The toggle button of either view: what it shows and what a click does. *)
Record Button : Type := MkButton
  { label : string;
    title : string;
    stopsPropagation : bool;
    setsIsExpanded : bool }.

(** The props: [maxPreviewLength] and [className] may be left out. *)
Record Props : Type := MkProps
  { content : string;
    maxPreviewLength : option Z;
    className : option string }.

(** The three shapes the component returns. *)
Inductive View : Type :=
| Plain (className : string) (text : string)
| Expanded (className : string) (contentBlock : string) (toggle : Button)
| Collapsed (className : string) (preview : string) (toggle : Button).

Section Component.

(** The translation lookup, the class names of the style sheet, and the two
    built-ins [JSON.parse] (which throws on text that is not JSON) and
    [JSON.stringify(_, null, indent)]. *)
Variable t : string -> string.
Variable styles : string -> string.
Variable JsValue : Type.
Variable JSON_parse : string -> Js.Outcome JsValue.
Variable JSON_stringify : JsValue -> Z -> string.

(** [useState(false)]. *)
Definition initialIsExpanded : bool := false.

(** Both branches of the [try] return, so the function returns a text. *)
Definition formatContent (text : string) : string :=
  match
    Js.catch
      (Js.bind (JSON_parse text) (fun parsed =>
       Js.Resolved (JSON_stringify parsed 2)))
      (fun _ => Js.Resolved text)
  with
  | Js.Resolved out => out
  | Js.Rejected _ => text
  end.

(** The body of the component, once the props are destructured. *)
Definition render (content : string) (maxPreviewLength : Z) (className : string)
    (isExpanded : bool) : View :=
  if Z.of_nat (String.length content) <=? maxPreviewLength then
    Plain className content
  else
    let formattedContent := formatContent content in
    let preview := Js.substring content 0 maxPreviewLength in
    let wrapper := styles "collapsibleWrapper" +:+ " " +:+ className in
    if isExpanded then
      Expanded wrapper formattedContent
        {| label := t "logs.collapse";
           title := t "logs.collapse";
           stopsPropagation := true;
           setsIsExpanded := false |}
    else
      Collapsed wrapper (preview +:+ "...")
        {| label := t "logs.expand" +:+ " (" +:+
                    Js.number_text (Js.ceil_div (Z.of_nat (String.length content)) 1024) +:+
                    "KB)";
           title := t "logs.expand";
           stopsPropagation := true;
           setsIsExpanded := true |}.

(** The component: [maxPreviewLength = 200] and [className = ''] are the
    defaults of the destructuring. *)
Definition CollapsibleContent (props : Props) (isExpanded : bool) : View :=
  render (content props)
         (match maxPreviewLength props with Some n => n | None => 200 end)
         (match className props with Some c => c | None => "" end)
         isExpanded.

(** The toggle control of a view, when it has one. *)
Definition toggleOf (v : View) : option Button :=
  match v with
  | Plain _ _ => None
  | Expanded _ _ b => Some b
  | Collapsed _ _ b => Some b
  end.

(** A click on the toggle of the view rendered for [isExpanded]: the handler
    stores its constant; a view without a toggle leaves the state alone. *)
Definition click (v : View) (isExpanded : bool) : bool :=
  match toggleOf v with
  | Some b => setsIsExpanded b
  | None => isExpanded
  end.

(** The state after a click on what is on screen. *)
Definition clickToggle (content : string) (maxPreviewLength : Z) (className : string)
    (isExpanded : bool) : bool :=
  click (render content maxPreviewLength className isExpanded) isExpanded.

End Component.

End CollapsibleWidget.

(** ** QuotaPage *)

Module QuotaPage.

Import Js.

(** Modelled from the spec: the [AuthFileItem] type of [@/types] is not part
    of the sources at hand. A credential file is identified by [name]; the
    provider-identifying fields are kept as a list of named attributes. *)
Record AuthFileItem : Type := MkAuthFileItem
  { name : string;
    attrs : list (string * string) }.

(** What [authFilesApi.list()] resolves to: [{ files?: AuthFileItem[] }]. *)
Record ListResponse : Type := MkListResponse
  { resp_files : option (list AuthFileItem) }.

(** [data?.files || []] *)
Definition filesOrEmpty (data : option ListResponse) : list AuthFileItem :=
  match data with
  | Some r => match resp_files r with Some l => l | None => [] end
  | None => []
  end.

(** The places where a task can be suspended. *)
Inductive AwaitPoint : Type :=
| AtConfigYaml
| AtList
| AtQuotas (provider : nat).

#[global] Instance AwaitPoint_eq_dec : EqDecision AwaitPoint.
Proof. solve_decision. Defined.

(** What a run does to the outside, in order. *)
Inductive Event : Type :=
| EvFetchConfigYaml
| EvList
| EvSetLoading (provider : nat)
| EvFetchQuota (provider : nat) (file : AuthFileItem)
| EvMerge (provider : nat).

(** The provider an event belongs to, if any. *)
Definition providerOf (e : Event) : option nat :=
  match e with
  | EvFetchConfigYaml | EvList => None
  | EvSetLoading i | EvFetchQuota i _ | EvMerge i => Some i
  end.

Section Page.

(** [Data] is what a quota fetch yields and [QS] the per-file display state
    of a section; both belong to [@/components/quota]. *)
Variable Data : Type.
Variable QS : Type.

(** The descriptor of a provider section, as far as this page uses it.
    [config.fetchQuota(file, t)] is a request to the outside: how it settles
    is part of the [World] below. *)
Record QuotaConfig : Type := MkQuotaConfig
  { storeSetter : string;
    filterFn : AuthFileItem -> bool;
    buildLoadingState : QS;
    buildSuccessState : Data -> QS;
    buildErrorState : string -> option Z -> QS }.

(** The translation lookup and the four descriptors the page imports. *)
Variable t : string -> string.
Variable ANTIGRAVITY_CONFIG : QuotaConfig.
Variable CODEX_CONFIG : QuotaConfig.
Variable GEMINI_CLI_CONFIG : QuotaConfig.
Variable CLAUDE_CONFIG : QuotaConfig.

(** *** State *)

(** The state the callbacks read and write: the connection status of the
    auth store, the four [useState] cells, the [useRef] cell and the quota
    store. A closure [() => { aborted = true }] is named by the invocation
    that created it; [aborted] holds the invocations whose local flag has
    been set. Every store setter is filed under its name. *)
Record Page : Type := MkPage
  { connectionStatus : string;
    files : list AuthFileItem;
    loading : bool;
    error : string;
    refreshingAll : bool;
    refreshAllAbortRef : option nat;
    aborted : gset nat;
    quotaStore : gmap string (gmap string QS) }.

Definition disableControls (s : Page) : bool :=
  negb (String.eqb (connectionStatus s) "connected").

Definition setFiles (v : list AuthFileItem) (s : Page) : Page :=
  MkPage (connectionStatus s) v (loading s) (error s) (refreshingAll s)
         (refreshAllAbortRef s) (aborted s) (quotaStore s).

Definition setLoading (v : bool) (s : Page) : Page :=
  MkPage (connectionStatus s) (files s) v (error s) (refreshingAll s)
         (refreshAllAbortRef s) (aborted s) (quotaStore s).

(** [setError] takes an updater, as React setters do. *)
Definition setError (f : string -> string) (s : Page) : Page :=
  MkPage (connectionStatus s) (files s) (loading s) (f (error s)) (refreshingAll s)
         (refreshAllAbortRef s) (aborted s) (quotaStore s).

Definition setRefreshingAll (v : bool) (s : Page) : Page :=
  MkPage (connectionStatus s) (files s) (loading s) (error s) v
         (refreshAllAbortRef s) (aborted s) (quotaStore s).

Definition setAbortRef (v : option nat) (s : Page) : Page :=
  MkPage (connectionStatus s) (files s) (loading s) (error s) (refreshingAll s)
         v (aborted s) (quotaStore s).

Definition setAborted (v : gset nat) (s : Page) : Page :=
  MkPage (connectionStatus s) (files s) (loading s) (error s) (refreshingAll s)
         (refreshAllAbortRef s) v (quotaStore s).

(** The state map a setter manages; a setter never used yet manages the
    empty map. *)
Definition quotaOf (s : Page) (setter : string) : gmap string QS :=
  default ∅ (quotaStore s !! setter).

(** Modelled from the spec: the setters of [useQuotaStore] (the store is not
    part of the sources at hand). Called with an updater, a setter replaces
    the state map it manages by the updater's result on the current map. *)
Definition callSetter (setter : string) (updater : gmap string QS -> gmap string QS)
    (s : Page) : Page :=
  MkPage (connectionStatus s) (files s) (loading s) (error s) (refreshingAll s)
         (refreshAllAbortRef s) (aborted s)
         (<[setter := updater (quotaOf s setter)]> (quotaStore s)).

(** [let aborted = false; refreshAllAbortRef.current = () => { aborted = true }]
    for the invocation [self]. *)
Definition installAbort (self : nat) (s : Page) : Page :=
  setAbortRef (Some self) (setAborted (aborted s ∖ {[self]}) s).

(** The clean-up of the second effect, run when the page is torn down:
    [if (refreshAllAbortRef.current) refreshAllAbortRef.current()]. *)
Definition teardown (s : Page) : Page :=
  match refreshAllAbortRef s with
  | Some inv => setAborted ({[inv]} ∪ aborted s) s
  | None => s
  end.

(** *** Tasks *)

(** An [async] function body: it returns, throws, reads or updates the
    state, leaves a mark in the trace, or suspends on a request and goes on
    with the way the request settles. [AwaitQuotas] stands for the
    [Promise.all] over the matching files of one provider: all fetches are
    issued at once and the task goes on when all of them have settled. *)
Inductive Task (A : Type) : Type :=
| Ret (a : A)
| Throw (e : Thrown)
| Get (k : Page -> Task A)
| Put (f : Page -> Page) (k : Task A)
| Emit (e : Event) (k : Task A)
| AwaitConfigYaml (k : Outcome unit -> Task A)
| AwaitList (k : Outcome (option ListResponse) -> Task A)
| AwaitQuotas (provider : nat) (requested : list AuthFileItem)
    (k : list (Outcome Data) -> Task A).
Arguments Ret {A} a.
Arguments Throw {A} e.
Arguments Get {A} k.
Arguments Put {A} f k.
Arguments Emit {A} e k.
Arguments AwaitConfigYaml {A} k.
Arguments AwaitList {A} k.
Arguments AwaitQuotas {A} provider requested k.

Fixpoint bind {A B : Type} (m : Task A) (f : A -> Task B) : Task B :=
  match m with
  | Ret a => f a
  | Throw e => Throw e
  | Get k => Get (fun s => bind (k s) f)
  | Put g k => Put g (bind k f)
  | Emit e k => Emit e (bind k f)
  | AwaitConfigYaml k => AwaitConfigYaml (fun r => bind (k r) f)
  | AwaitList k => AwaitList (fun r => bind (k r) f)
  | AwaitQuotas i fs k => AwaitQuotas i fs (fun r => bind (k r) f)
  end.

(** [try { m } catch (err) { h err }] *)
Fixpoint try_catch {A : Type} (m : Task A) (h : Thrown -> Task A) : Task A :=
  match m with
  | Ret a => Ret a
  | Throw e => h e
  | Get k => Get (fun s => try_catch (k s) h)
  | Put g k => Put g (try_catch k h)
  | Emit e k => Emit e (try_catch k h)
  | AwaitConfigYaml k => AwaitConfigYaml (fun r => try_catch (k r) h)
  | AwaitList k => AwaitList (fun r => try_catch (k r) h)
  | AwaitQuotas i fs k => AwaitQuotas i fs (fun r => try_catch (k r) h)
  end.

(** [try { m } finally { c }]: [c] runs on both exits and the exit of [m] is
    kept unless [c] itself throws. *)
Fixpoint try_finally {A : Type} (m : Task A) (c : Task unit) : Task A :=
  match m with
  | Ret a => bind c (fun _ => Ret a)
  | Throw e => bind c (fun _ => Throw e)
  | Get k => Get (fun s => try_finally (k s) c)
  | Put g k => Put g (try_finally k c)
  | Emit e k => Emit e (try_finally k c)
  | AwaitConfigYaml k => AwaitConfigYaml (fun r => try_finally (k r) c)
  | AwaitList k => AwaitList (fun r => try_finally (k r) c)
  | AwaitQuotas i fs k => AwaitQuotas i fs (fun r => try_finally (k r) c)
  end.

Declare Scope task_scope.
Notation "x <- m ;; k" := (bind m (fun x => k))
  (at level 20, m at level 99, k at level 200, only parsing) : task_scope.
Notation "m ;; k" := (bind m (fun _ => k))
  (at level 100, k at level 200, right associativity, only parsing) : task_scope.
Delimit Scope task_scope with task.
Local Open Scope task_scope.

(** A settled promise seen from the task that awaited it. *)
Definition settled {A : Type} (o : Outcome A) : Task A :=
  match o with
  | Resolved a => Ret a
  | Rejected e => Throw e
  end.

Definition update (f : Page -> Page) : Task unit := Put f (Ret tt).
Definition emit (e : Event) : Task unit := Emit e (Ret tt).
Definition read {A : Type} (f : Page -> A) : Task A := Get (fun s => Ret (f s)).

(** [await configFileApi.fetchConfigYaml()] and [await authFilesApi.list()] *)
Definition configFileApi_fetchConfigYaml : Task unit := AwaitConfigYaml settled.
Definition authFilesApi_list : Task (option ListResponse) := AwaitList settled.

(** [err instanceof Error ? err.message : t(key)] *)
Definition errorMessageOf (key : string) (err : Thrown) : string :=
  if isError err then message err else t key.

(** *** The callbacks *)

Definition loadConfig : Task unit :=
  try_catch
    configFileApi_fetchConfigYaml
    (fun err =>
       let errorMessage := errorMessageOf "notification.refresh_failed" err in
       update (setError (fun prev => or_else prev errorMessage))).

Definition loadFiles : Task unit :=
  update (setLoading true) ;;
  update (setError (fun _ => "")) ;;
  try_finally
    (try_catch
       (data <- authFilesApi_list ;;
        update (setFiles (filesOrEmpty data)))
       (fun err =>
          let errorMessage := errorMessageOf "notification.refresh_failed" err in
          update (setError (fun _ => errorMessage))))
    (update (setLoading false)).

(** The entries [results] of the [Promise.all] in [refreshAllQuotas]. *)
Inductive FetchResult : Type :=
| Success (name : string) (data : Data)
| Failure (name : string) (error : string) (errorStatus : option Z).

(** The [async (file) => { try { ... } catch (err) { ... } }] given to
    [filteredFiles.map]: how its promise settles, from the way
    [config.fetchQuota(file, t)] settled. *)
Definition fetchOne (file : AuthFileItem) (fetched : Outcome Data) : Outcome FetchResult :=
  catch
    (Js.bind fetched (fun data =>
     Resolved (Success (name file) data)))
    (fun err =>
       let message := errorMessageOf "common.unknown_error" err in
       let errorStatus := status err in
       Resolved (Failure (name file) message errorStatus)).

(** What the promise of [fetchOne] resolves to. *)
Definition resultOf (file : AuthFileItem) (fetched : Outcome Data) : FetchResult :=
  match fetched with
  | Resolved data => Success (name file) data
  | Rejected err =>
      Failure (name file) (errorMessageOf "common.unknown_error" err) (status err)
  end.

(** The updater that sets the loading state of a section. *)
Definition markLoading (config : QuotaConfig) (filteredFiles : list AuthFileItem)
    (prev : gmap string QS) : gmap string QS :=
  fold_left (fun nextState file => <[name file := buildLoadingState config]> nextState)
            filteredFiles prev.

(** The updater that writes the results back. *)
Definition mergeResults (config : QuotaConfig) (results : list FetchResult)
    (prev : gmap string QS) : gmap string QS :=
  fold_left
    (fun nextState result =>
       match result with
       | Success n data => <[n := buildSuccessState config data]> nextState
       | Failure n err errorStatus =>
           <[n := buildErrorState config (or_else err (t "common.unknown_error")) errorStatus]>
             nextState
       end)
    results prev.

Definition configs : list QuotaConfig :=
  [ANTIGRAVITY_CONFIG; CODEX_CONFIG; GEMINI_CLI_CONFIG; CLAUDE_CONFIG].

(** The value of the local [aborted] of the invocation [self]. *)
Definition readAborted (self : nat) : Task bool :=
  read (fun s => bool_decide (self ∈ aborted s)).

(** The [for (const config of configs)] loop; [i] is the position of the
    head of [rest] in [configs] and only labels requests and marks. *)
Fixpoint quotaLoop (self : nat) (i : nat) (rest : list QuotaConfig)
    (filesList : list AuthFileItem) : Task unit :=
  match rest with
  | [] => Ret tt
  | config :: rest' =>
      isAborted <- readAborted self ;;
      if isAborted then Ret tt else
      let filteredFiles := List.filter (filterFn config) filesList in
      if Nat.eqb (length filteredFiles) 0 then quotaLoop self (S i) rest' filesList else
      emit (EvSetLoading i) ;;
      update (callSetter (storeSetter config) (markLoading config filteredFiles)) ;;
      fetched <- AwaitQuotas i filteredFiles Ret ;;
      results <- settled (promise_all (zip_with fetchOne filteredFiles fetched)) ;;
      isAborted <- readAborted self ;;
      if isAborted then Ret tt else
      emit (EvMerge i) ;;
      update (callSetter (storeSetter config) (mergeResults config results)) ;;
      quotaLoop self (S i) rest' filesList
  end.

(** The callback. [self] names this invocation, that is, its local
    [aborted] and the closure it stores in [refreshAllAbortRef]. The guard
    reads [refreshingAll] and [disableControls] as the page holds them when
    the callback is called. *)
Definition refreshAllQuotas (self : nat) : Task unit :=
  s <- read (fun s => s) ;;
  if refreshingAll s || disableControls s then Ret tt else
  update (setRefreshingAll true) ;;
  update (setError (fun _ => "")) ;;
  update (installAbort self) ;;
  try_finally
    (try_catch
       (loadConfig ;;
        isAborted <- readAborted self ;;
        if isAborted then Ret tt else
        latestFiles <- authFilesApi_list ;;
        let filesList := filesOrEmpty latestFiles in
        isAborted <- readAborted self ;;
        if isAborted then Ret tt else
        update (setFiles filesList) ;;
        quotaLoop self 0 configs filesList)
       (fun err =>
          let errorMessage := errorMessageOf "notification.refresh_failed" err in
          update (setError (fun _ => errorMessage))))
    (isAborted <- readAborted self ;;
     if isAborted then Ret tt else
     update (setRefreshingAll false) ;;
     update (setAbortRef None)).

(** *** Vocabulary for the quota maps *)

(** [n] is the name of a file of [filesList] that one of [cfgs] selects and
    whose state map is the one managed by [setter]. *)
Definition matched (cfgs : list QuotaConfig) (filesList : list AuthFileItem)
    (setter n : string) : Prop :=
  exists (config : QuotaConfig) (f : AuthFileItem),
    In config cfgs /\ storeSetter config = setter /\
    In f filesList /\ filterFn config f = true /\ name f = n.

(** From [s] to [s'] the quota maps were only upserted at the keys
    [touched]: no entry was removed, and an entry under any other key is
    what it was. *)
Definition upserted (touched : string -> string -> Prop) (s s' : Page) : Prop :=
  forall setter n : string,
    (is_Some (quotaOf s setter !! n) -> is_Some (quotaOf s' setter !! n)) /\
    (quotaOf s' setter !! n = quotaOf s setter !! n \/ touched setter n).

(** *** Running a task *)

(** What the outside does during one run: how each request settles, and
    during which suspension, if any, the page is torn down. *)
Record World : Type := MkWorld
  { fetchConfigYaml : Outcome unit;
    list_ : Outcome (option ListResponse);
    fetchQuota : nat -> AuthFileItem -> Outcome Data;
    unmountDuring : option AwaitPoint }.

(** The state when a task resumes from the suspension at [p]. *)
Definition whileSuspended (w : World) (p : AwaitPoint) (s : Page) : Page :=
  if decide (unmountDuring w = Some p) then teardown s else s.

(** The events a run starts with, put in front of the rest of its trace. *)
Definition prepend {A : Type} (evs : list Event) (r : Outcome A * Page * list Event)
    : Outcome A * Page * list Event :=
  (fst (fst r), snd (fst r), (evs ++ snd r)%list).

(** A run to completion: the way the task ends, the final state and the
    trace of requests and marks. *)
Fixpoint run {A : Type} (w : World) (m : Task A) (s : Page)
    : Outcome A * Page * list Event :=
  match m with
  | Ret a => (Resolved a, s, [])
  | Throw e => (Rejected e, s, [])
  | Get k => run w (k s) s
  | Put f k => run w k (f s)
  | Emit e k => prepend [e] (run w k s)
  | AwaitConfigYaml k =>
      prepend [EvFetchConfigYaml]
        (run w (k (fetchConfigYaml w)) (whileSuspended w AtConfigYaml s))
  | AwaitList k =>
      prepend [EvList] (run w (k (list_ w)) (whileSuspended w AtList s))
  | AwaitQuotas i fs k =>
      prepend (map (EvFetchQuota i) fs)
        (run w (k (map (fetchQuota w i) fs)) (whileSuspended w (AtQuotas i) s))
  end.

(** Sequencing at the level of runs: what follows a task runs in the
    state the task leaves, unless the task throws. *)
Definition andThen {A B : Type} (r : Outcome A * Page * list Event)
    (f : A -> Page -> Outcome B * Page * list Event) : Outcome B * Page * list Event :=
  match r with
  | (Resolved a, s, tr) => prepend tr (f a s)
  | (Rejected e, s, tr) => (Rejected e, s, tr)
  end.

(** Handling at the level of runs: the handler runs in the state the task
    leaves when the task throws. *)
Definition orElse {A : Type} (r : Outcome A * Page * list Event)
    (h : Thrown -> Page -> Outcome A * Page * list Event) : Outcome A * Page * list Event :=
  match r with
  | (Resolved a, s, tr) => (Resolved a, s, tr)
  | (Rejected e, s, tr) => prepend tr (h e s)
  end.

(** Finalisation at the level of runs: the finaliser runs on both exits and
    the exit of the task is kept unless the finaliser throws. *)
Definition andFinally {A : Type} (r : Outcome A * Page * list Event)
    (c : Page -> Outcome unit * Page * list Event) : Outcome A * Page * list Event :=
  match r with
  | (o, s, tr) =>
      match c s with
      | (Resolved _, s', tr') => (o, s', (tr ++ tr')%list)
      | (Rejected e, s', tr') => (Rejected e, s', (tr ++ tr')%list)
      end
  end.

(** Where the synchronous prefix of a task stops. *)
Inductive Pending (A : Type) : Type :=
| Finished (o : Outcome A)
| OnConfigYaml (k : Outcome unit -> Task A)
| OnList (k : Outcome (option ListResponse) -> Task A)
| OnQuotas (provider : nat) (requested : list AuthFileItem)
    (k : list (Outcome Data) -> Task A).
Arguments Finished {A} o.
Arguments OnConfigYaml {A} k.
Arguments OnList {A} k.
Arguments OnQuotas {A} provider requested k.

(** A task run up to its first suspension: where it stopped and the state
    it leaves for whatever runs meanwhile. *)
Fixpoint start {A : Type} (m : Task A) (s : Page) : Pending A * Page :=
  match m with
  | Ret a => (Finished (Resolved a), s)
  | Throw e => (Finished (Rejected e), s)
  | Get k => start (k s) s
  | Put f k => start k (f s)
  | Emit _ k => start k s
  | AwaitConfigYaml k => (OnConfigYaml k, s)
  | AwaitList k => (OnList k, s)
  | AwaitQuotas i fs k => (OnQuotas i fs k, s)
  end.

End Page.

Arguments Ret {Data QS A} a.
Arguments Throw {Data QS A} e.
Arguments Finished {Data QS A} o.
Arguments OnList {Data QS A} k.
Arguments OnConfigYaml {Data QS A} k.
Arguments OnQuotas {Data QS A} provider requested k.
Arguments storeSetter {Data QS} q.
Arguments filterFn {Data QS} q _.
Arguments buildLoadingState {Data QS} q.
Arguments buildSuccessState {Data QS} q _.
Arguments buildErrorState {Data QS} q _ _.
Arguments connectionStatus {QS} p.
Arguments files {QS} p.
Arguments loading {QS} p.
Arguments error {QS} p.
Arguments refreshingAll {QS} p.
Arguments refreshAllAbortRef {QS} p.
Arguments aborted {QS} p.
Arguments quotaStore {QS} p.
Arguments fetchConfigYaml {Data} w.
Arguments list_ {Data} w.
Arguments fetchQuota {Data} w _ _.
Arguments unmountDuring {Data} w.
Arguments Success {Data} name data.
Arguments Failure {Data} name error errorStatus.
Arguments disableControls {QS} s.
Arguments quotaOf {QS} s setter.
Arguments callSetter {QS} setter updater s.
Arguments installAbort {QS} self s.
Arguments teardown {QS} s.
Arguments setFiles {QS} v s.
Arguments setLoading {QS} v s.
Arguments setError {QS} f s.
Arguments setRefreshingAll {QS} v s.
Arguments setAbortRef {QS} v s.
Arguments setAborted {QS} v s.
Arguments markLoading {Data QS} config filteredFiles prev.
Arguments mergeResults {Data QS} t config results prev.
Arguments fetchOne {Data} t file fetched.
Arguments resultOf {Data} t file fetched.
Arguments prepend {QS A} evs r.
Arguments matched {Data QS} cfgs filesList setter n.
Arguments upserted {QS} touched s s'.
Arguments andThen {QS A B} r f.
Arguments orElse {QS A} r h.
Arguments andFinally {QS A} r c.
Arguments whileSuspended {Data QS} w p s.
Arguments run {Data QS A} w m s.
Arguments start {Data QS A} m s.
Arguments bind {Data QS A B} m f.
Arguments try_catch {Data QS A} m h.
Arguments try_finally {Data QS A} m c.

End QuotaPage.

(** ** Concrete instances used to exercise the definitions *)

Module Samples.

Import Js.

(** A translation table that answers every key with the key itself. *)
Definition t (key : string) : string := key.

(** Class names of the style sheet, as a CSS module would mangle them. *)
Definition styles (cls : string) : string := "cc_" +:+ cls.

(** [n] copies of the letter x. *)
Fixpoint xs (n : nat) : string :=
  match n with
  | O => EmptyString
  | S n' => String "x"%char (xs n')
  end.

(** The three JSON literals: enough of [JSON.parse] and [JSON.stringify] to
    run the widget on text that parses and on text that does not. *)
Inductive Literal : Type := LNull | LTrue | LFalse.

Definition syntaxError : Thrown :=
  {| isError := true; message := "Unexpected token"; status := None |}.

Definition JSON_parse (text : string) : Outcome Literal :=
  if String.eqb text "null" then Resolved LNull
  else if String.eqb text "true" then Resolved LTrue
  else if String.eqb text "false" then Resolved LFalse
  else Rejected syntaxError.

Definition JSON_stringify (v : Literal) (indent : Z) : string :=
  match v with
  | LNull => "null"
  | LTrue => "true"
  | LFalse => "false"
  end.

(** Modelled from the spec: the per-file display state of a quota section,
    [loading | success(data) | error(message, statusCode)]; the sections of
    [@/components/quota] are not part of the sources at hand. *)
Inductive QuotaState : Type :=
| QLoading
| QSuccess (data : Z)
| QError (message : string) (statusCode : option Z).

(** A credential file of a given provider. *)
Definition file (n provider : string) : QuotaPage.AuthFileItem :=
  {| QuotaPage.name := n; QuotaPage.attrs := [("type", provider)] |}.

Definition hasType (provider : string) (f : QuotaPage.AuthFileItem) : bool :=
  existsb (fun kv => String.eqb (fst kv) "type" && String.eqb (snd kv) provider)
          (QuotaPage.attrs f).

(** A descriptor that selects the files of one provider. *)
Definition config (setter provider : string) : QuotaPage.QuotaConfig Z QuotaState :=
  {| QuotaPage.storeSetter := setter;
     QuotaPage.filterFn := hasType provider;
     QuotaPage.buildLoadingState := QLoading;
     QuotaPage.buildSuccessState := QSuccess;
     QuotaPage.buildErrorState := QError |}.

Definition ANTIGRAVITY_CONFIG := config "setAntigravityQuota" "antigravity".
Definition CODEX_CONFIG := config "setCodexQuota" "codex".
Definition GEMINI_CLI_CONFIG := config "setGeminiCliQuota" "gemini-cli".
Definition CLAUDE_CONFIG := config "setClaudeQuota" "claude".

(** A connected page that shows nothing yet. *)
Definition idle : QuotaPage.Page QuotaState :=
  {| QuotaPage.connectionStatus := "connected";
     QuotaPage.files := [];
     QuotaPage.loading := false;
     QuotaPage.error := "";
     QuotaPage.refreshingAll := false;
     QuotaPage.refreshAllAbortRef := None;
     QuotaPage.aborted := ∅;
     QuotaPage.quotaStore := ∅ |}.

(** A page that shows an earlier list and an earlier error. *)
Definition stale : QuotaPage.Page QuotaState :=
  {| QuotaPage.connectionStatus := "connected";
     QuotaPage.files := [file "old.json" "codex"];
     QuotaPage.loading := false;
     QuotaPage.error := "earlier failure";
     QuotaPage.refreshingAll := false;
     QuotaPage.refreshAllAbortRef := None;
     QuotaPage.aborted := ∅;
     QuotaPage.quotaStore := {[ "setCodexQuota" := {[ "old.json" := QSuccess 1 ]} ]} |}.

(** A page on which a refresh is under way. *)
Definition busy : QuotaPage.Page QuotaState :=
  {| QuotaPage.connectionStatus := "connected";
     QuotaPage.files := [file "old.json" "codex"];
     QuotaPage.loading := false;
     QuotaPage.error := "";
     QuotaPage.refreshingAll := true;
     QuotaPage.refreshAllAbortRef := Some 1%nat;
     QuotaPage.aborted := ∅;
     QuotaPage.quotaStore := {[ "setCodexQuota" := {[ "old.json" := QSuccess 1 ]} ]} |}.

Definition timeout503 : Thrown :=
  {| isError := true; message := "timeout"; status := Some 503 |}.

Definition emptyMessage : Thrown :=
  {| isError := true; message := ""; status := None |}.

Definition offline : Thrown :=
  {| isError := true; message := "network down"; status := None |}.

(** Two codex files and one claude file. *)
Definition listing : list QuotaPage.AuthFileItem :=
  [file "a.json" "codex"; file "b.json" "codex"; file "c.json" "claude"].

(** The quota fetch of a.json fails with [e]; every other one yields 7. *)
Definition quotaOutcomes (e : Thrown) (i : nat) (f : QuotaPage.AuthFileItem) : Outcome Z :=
  if String.eqb (QuotaPage.name f) "a.json" then Rejected e else Resolved 7.

(** A world in which the configuration and the listing are served, the
    quota fetch of a.json fails with [e], and the page is torn down during
    the suspension [u], if any. *)
Definition world (e : Thrown) (u : option QuotaPage.AwaitPoint) : QuotaPage.World Z :=
  {| QuotaPage.fetchConfigYaml := Resolved tt;
     QuotaPage.list_ := Resolved (Some {| QuotaPage.resp_files := Some listing |});
     QuotaPage.fetchQuota := quotaOutcomes e;
     QuotaPage.unmountDuring := u |}.

(** Nothing tears the page down. *)
Definition calm : QuotaPage.World Z := world timeout503 None.

(** The page is torn down while the codex fetches are in flight (codex is
    the second descriptor). *)
Definition unmountedAtCodex : QuotaPage.World Z :=
  world timeout503 (Some (QuotaPage.AtQuotas 1)).

(** The failure of a.json has an empty message. *)
Definition silentFailure : QuotaPage.World Z := world emptyMessage None.

(** A rejection with the plain object [{ message: 'timeout', status: 503 }]:
    it has both fields, but it is not an [Error]. *)
Definition plainTimeout503 : Thrown :=
  {| isError := false; message := "timeout"; status := Some 503 |}.

(** The failure of a.json is that plain object. *)
Definition plainFailure : QuotaPage.World Z := world plainTimeout503 None.

(** Both the configuration and the listing fail. *)
Definition failing : QuotaPage.World Z :=
  {| QuotaPage.fetchConfigYaml := Rejected offline;
     QuotaPage.list_ := Rejected offline;
     QuotaPage.fetchQuota := quotaOutcomes timeout503;
     QuotaPage.unmountDuring := None |}.

(** The page's callbacks on the sample descriptors. *)
Definition refreshAllQuotas : nat -> QuotaPage.Task Z QuotaState unit :=
  QuotaPage.refreshAllQuotas Z QuotaState t
    ANTIGRAVITY_CONFIG CODEX_CONFIG GEMINI_CLI_CONFIG CLAUDE_CONFIG.

Definition loadFiles : QuotaPage.Task Z QuotaState unit :=
  QuotaPage.loadFiles Z QuotaState t.

Definition a_json : QuotaPage.AuthFileItem := file "a.json" "codex".
Definition b_json : QuotaPage.AuthFileItem := file "b.json" "codex".

End Samples.

(** ** QuotaPage: the rest of the component *)

Module Lifecycle.

Import Js QuotaPage.

Section Component.

Variable Data : Type.
Variable QS : Type.
Variable t : string -> string.
Variable ANTIGRAVITY_CONFIG : QuotaConfig Data QS.
Variable CODEX_CONFIG : QuotaConfig Data QS.
Variable GEMINI_CLI_CONFIG : QuotaConfig Data QS.
Variable CLAUDE_CONFIG : QuotaConfig Data QS.

(** The page as the component function finds it at the first render:
    [useState([])], [useState(true)], [useState('')], [useState(false)] and
    [useRef(null)]; the connection status and the quota store live outside
    the component. *)
Definition initialPage (status : string) (store : gmap string (gmap string QS)) : Page QS :=
  {| connectionStatus := status;
     files := [];
     loading := true;
     error := "";
     refreshingAll := false;
     refreshAllAbortRef := None;
     aborted := ∅;
     quotaStore := store |}.

(** A suspended task resumes when its request settles and runs to its next
    suspension, in the state left by whatever happened meanwhile. *)
Definition resume {A : Type} (w : World Data) (p : Pending Data QS A) (s : Page QS)
    : Pending Data QS A * Page QS :=
  match p with
  | Finished o => (Finished o, s)
  | OnConfigYaml k => start (k (fetchConfigYaml w)) (whileSuspended w AtConfigYaml s)
  | OnList k => start (k (list_ w)) (whileSuspended w AtList s)
  | OnQuotas i fs k =>
      start (k (map (fetchQuota w i) fs)) (whileSuspended w (AtQuotas i) s)
  end.

(** How the promise of an [async] function stands. *)
Definition promiseOf {A : Type} (p : Pending Data QS A) : option (Outcome A) :=
  match p with
  | Finished o => Some o
  | _ => None
  end.

(** Two tasks started one after the other, whose requests then settle in
    the order [firstFirst] tells: where both stand in the end, and the
    state. *)
Definition startBoth {A B : Type} (w : World Data) (firstFirst : bool)
    (m1 : Task Data QS A) (m2 : Task Data QS B) (s : Page QS)
    : Pending Data QS A * Pending Data QS B * Page QS :=
  let r1 := start m1 s in
  let r2 := start m2 (snd r1) in
  if firstFirst then
    let r1' := resume w (fst r1) (snd r2) in
    let r2' := resume w (fst r2) (snd r1') in
    (fst r1', fst r2', snd r2')
  else
    let r2' := resume w (fst r2) (snd r2) in
    let r1' := resume w (fst r1) (snd r2') in
    (fst r1', fst r2', snd r1').

(** [await Promise.all([loadConfig(), loadFiles()])]: the way the promise of
    [handleHeaderRefresh] settles ([None] while a request is pending) and
    the state then. [configFirst] tells whether the configuration request
    settles before the list request. *)
Definition handleHeaderRefresh (w : World Data) (configFirst : bool) (s : Page QS)
    : option (Outcome unit) * Page QS :=
  let r := startBoth w configFirst (loadConfig Data QS t) (loadFiles Data QS t) s in
  (match promiseOf (fst (fst r)), promiseOf (snd (fst r)) with
   | Some o1, Some o2 => Some (Js.bind (promise_all [o1; o2]) (fun _ => Resolved tt))
   | _, _ => None
   end,
   snd r).

(** The first effect, [loadFiles(); loadConfig();]: both are started, in
    this order, and nothing waits for them. The state once both requests
    have settled, [filesFirst] telling whether the list request settles
    before the configuration request. *)
Definition mountEffect (w : World Data) (filesFirst : bool) (s : Page QS) : Page QS :=
  snd (startBoth w filesFirst (loadFiles Data QS t) (loadConfig Data QS t) s).

(** *** What the component returns *)

(** The refresh button: its [disabled] and [loading] props, whether the
    icon is among its children, its title and its caption. *)
Record RefreshButton : Type := MkRefreshButton
  { btn_disabled : bool;
    btn_loading : bool;
    btn_icon : bool;
    btn_title : string;
    btn_caption : string }.

(** The props of a [QuotaSection]. *)
Record SectionProps : Type := MkSectionProps
  { sec_config : QuotaConfig Data QS;
    sec_files : list AuthFileItem;
    sec_loading : bool;
    sec_disabled : bool }.

Record PageView : Type := MkPageView
  { pageTitle : string;
    description : string;
    refreshButton : RefreshButton;
    errorBox : option string;
    sections : list SectionProps }.

Definition render (s : Page QS) : PageView :=
  {| pageTitle := t "quota_management.title";
     description := t "quota_management.description";
     refreshButton :=
       {| btn_disabled := disableControls s || refreshingAll s || loading s;
          btn_loading := refreshingAll s;
          btn_icon := negb (refreshingAll s);
          btn_title := t "quota_management.refresh_all_quotas";
          btn_caption := t "quota_management.refresh_all_quotas" |};
     errorBox := if String.eqb (error s) "" then None else Some (error s);
     sections :=
       map (fun config =>
              {| sec_config := config;
                 sec_files := files s;
                 sec_loading := loading s;
                 sec_disabled := disableControls s |})
           (configs Data QS ANTIGRAVITY_CONFIG CODEX_CONFIG GEMINI_CLI_CONFIG CLAUDE_CONFIG) |}.

(** *** A refresh that nothing interrupts, written out *)

(** The turn of one provider when the page is not torn down: nothing when
    no file matches, else the loading states and then the results. *)
Definition passPage (w : World Data) (i : nat) (config : QuotaConfig Data QS)
    (filesList : list AuthFileItem) (s : Page QS) : Page QS :=
  let filteredFiles := List.filter (filterFn config) filesList in
  if Nat.eqb (length filteredFiles) 0 then s
  else
    callSetter (storeSetter config)
      (mergeResults t config
         (map (fun f => resultOf t f (fetchQuota w i f)) filteredFiles))
      (callSetter (storeSetter config) (markLoading config filteredFiles) s).

(** Its trace: a loading mark, one fetch per matching file in the order of
    the list, a merge. *)
Definition passTrace (i : nat) (config : QuotaConfig Data QS)
    (filesList : list AuthFileItem) : list Event :=
  let filteredFiles := List.filter (filterFn config) filesList in
  if Nat.eqb (length filteredFiles) 0 then []
  else (EvSetLoading i :: map (EvFetchQuota i) filteredFiles ++ [EvMerge i])%list.

(** The turns of the providers [cfgs], the first being the [i]-th. *)
Fixpoint loopPage (w : World Data) (i : nat) (cfgs : list (QuotaConfig Data QS))
    (filesList : list AuthFileItem) (s : Page QS) : Page QS :=
  match cfgs with
  | [] => s
  | config :: rest => loopPage w (S i) rest filesList (passPage w i config filesList s)
  end.

Fixpoint loopTrace (i : nat) (cfgs : list (QuotaConfig Data QS))
    (filesList : list AuthFileItem) : list Event :=
  match cfgs with
  | [] => []
  | config :: rest => (passTrace i config filesList ++ loopTrace (S i) rest filesList)%list
  end.

End Component.

Arguments initialPage {QS} status store.
Arguments resume {Data QS A} w p s.
Arguments promiseOf {Data QS A} p.
Arguments startBoth {Data QS A B} w firstFirst m1 m2 s.
Arguments sec_config {Data QS} s.
Arguments sec_files {Data QS} s.
Arguments sec_loading {Data QS} s.
Arguments sec_disabled {Data QS} s.
Arguments pageTitle {Data QS} p.
Arguments description {Data QS} p.
Arguments refreshButton {Data QS} p.
Arguments errorBox {Data QS} p.
Arguments sections {Data QS} p.
Arguments passPage {Data QS} t w i config filesList s.
Arguments passTrace {Data QS} i config filesList.
Arguments loopPage {Data QS} t w i cfgs filesList s.
Arguments loopTrace {Data QS} i cfgs filesList.

End Lifecycle.

(** ** More sample worlds *)

Module MoreSamples.

Import Js.

(** The configuration request fails, everything else is served. *)
Definition configDown : QuotaPage.World Z :=
  {| QuotaPage.fetchConfigYaml := Rejected Samples.offline;
     QuotaPage.list_ :=
       Resolved (Some {| QuotaPage.resp_files := Some Samples.listing |});
     QuotaPage.fetchQuota := Samples.quotaOutcomes Samples.timeout503;
     QuotaPage.unmountDuring := None |}.

(** The page is torn down while the configuration request is pending. *)
Definition unmountedAtConfig : QuotaPage.World Z :=
  Samples.world Samples.timeout503 (Some QuotaPage.AtConfigYaml).

(** The page is torn down while the list request is pending. *)
Definition unmountedAtList : QuotaPage.World Z :=
  Samples.world Samples.timeout503 (Some QuotaPage.AtList).

End MoreSamples.

(** * Properties *)

(** ** The JavaScript fragments *)

Section JsFacts.

Import Js.

(** [substring 0 n] cuts a text into its first [n] characters and a rest. *)
Lemma substring_prefix (n : nat) (s : string) :
  (n <= String.length s)%nat ->
  String.length (String.substring 0 n s) = n /\
  exists rest, s = String.substring 0 n s +:+ rest.
Proof.
  revert s. induction n as [|n IH]; intros s Hn.
  - destruct s; simpl; split; try reflexivity; eexists; reflexivity.
  - destruct s as [|c s]; simpl in Hn; [lia|].
    destruct (IH s) as [Hlen [rest Hrest]]; [lia|].
    simpl. split; [now rewrite Hlen|].
    exists rest.
    change (String c s = String c (String.substring 0 n s +:+ rest)).
    f_equal. exact Hrest.
Qed.

(** [text.substring(0, n)] when the text is longer than [n]. *)
Lemma js_substring_shorter (s : string) (n : Z) :
  n < Z.of_nat (String.length s) ->
  substring s 0 n = String.substring 0 (Z.to_nat n) s.
Proof.
  intros Hn. unfold substring.
  replace (Z.min (Z.max 0 0) (Z.of_nat (String.length s))) with 0 by lia.
  replace (Z.min (Z.max n 0) (Z.of_nat (String.length s))) with (Z.max n 0) by lia.
  replace (Z.min 0 (Z.max n 0)) with 0 by lia.
  replace (Z.max 0 (Z.max n 0) - 0) with (Z.max n 0) by lia.
  f_equal. lia.
Qed.

(** Rounding up the exact quotient by a positive divisor. *)
Lemma ceil_div_spec (n d : Z) :
  0 < d ->
  d * (ceil_div n d - 1) < n <= d * ceil_div n d.
Proof.
  intros Hd. destruct d as [|p|p]; try lia.
  unfold ceil_div, Qceiling, Qfloor, Qdiv, Qmult, Qinv, Qopp, inject_Z; simpl.
  rewrite Z.mul_1_r, Pos.mul_1_l.
  pose proof (Z.mul_div_le (- n) (Z.pos p) Hd) as Hlo.
  pose proof (Z.mul_succ_div_gt (- n) (Z.pos p) Hd) as Hhi.
  lia.
Qed.

(** The text of a number is a decimal numeral that reads as that number. *)
Lemma number_text_reads_back (n : Z) :
  option_map Z.of_int (NilZero.int_of_string (number_text n)) = Some n.
Proof.
  unfold number_text. rewrite NilZero.isi.
  - cbn. now rewrite DecimalZ.of_to.
  - destruct n as [|p|p]; cbn; try discriminate.
    intros E. injection E as E. exact (DecimalPos.Unsigned.to_uint_nonnil p E).
  - destruct n as [|p|p]; cbn; try discriminate.
    intros E. injection E as E. exact (DecimalPos.Unsigned.to_uint_nonnil p E).
Qed.

End JsFacts.

(** ** CollapsibleContent *)

Section CollapsibleContentFacts.

Import Js CollapsibleWidget.

Variable t : string -> string.
Variable styles : string -> string.
Variable JsValue : Type.
Variable JSON_parse : string -> Outcome JsValue.
Variable JSON_stringify : JsValue -> Z -> string.

Local Abbreviation render := (render t styles JsValue JSON_parse JSON_stringify).
Local Abbreviation clickToggle := (clickToggle t styles JsValue JSON_parse JSON_stringify).
Local Abbreviation formatContent := (formatContent JsValue JSON_parse JSON_stringify).
Local Abbreviation CollapsibleContent :=
  (CollapsibleContent t styles JsValue JSON_parse JSON_stringify).

(** The guard at the top of the component. *)
Lemma render_short (content : string) (maxPreviewLength : Z) (className : string)
    (isExpanded : bool) :
  Z.of_nat (String.length content) <= maxPreviewLength ->
  render content maxPreviewLength className isExpanded = Plain className content.
Proof.
  intros Hle. unfold CollapsibleWidget.render.
  destruct (Z.leb_spec (Z.of_nat (String.length content)) maxPreviewLength); [reflexivity | lia].
Qed.

Lemma render_long (content : string) (maxPreviewLength : Z) (className : string)
    (isExpanded : bool) :
  maxPreviewLength < Z.of_nat (String.length content) ->
  render content maxPreviewLength className isExpanded =
  if isExpanded then
    Expanded (styles "collapsibleWrapper" +:+ " " +:+ className) (formatContent content)
      (MkButton (t "logs.collapse") (t "logs.collapse") true false)
  else
    Collapsed (styles "collapsibleWrapper" +:+ " " +:+ className)
      (substring content 0 maxPreviewLength +:+ "...")
      (MkButton
         (t "logs.expand" +:+ " (" +:+
          number_text (ceil_div (Z.of_nat (String.length content)) 1024) +:+ "KB)")
         (t "logs.expand") true true).
Proof.
  intros Hlt. unfold CollapsibleWidget.render.
  destruct (Z.leb_spec (Z.of_nat (String.length content)) maxPreviewLength); [lia | reflexivity].
Qed.

(** C7. A content no longer than [maxPreviewLength] is rendered as it is,
    without a toggle, whatever the toggle state. A longer one is first
    rendered collapsed: the text shown is the first [maxPreviewLength]
    characters of the content followed by three dots, and the toggle is
    labelled with the expand caption and the size in KB: a decimal numeral
    that reads as the least [k] with [length <= 1024 * k]. For 500 letters x
    and no [maxPreviewLength] given (200 then) the preview is 200 letters x
    and three dots, and the size is 1KB; 1025 letters give 2KB and 10241
    letters 11KB. *)
Theorem C7_preview_and_size_label (content : string) (maxPreviewLength : Z)
    (className : string) :
  let len := Z.of_nat (String.length content) in
  (len <= maxPreviewLength ->
   forall isExpanded : bool,
     render content maxPreviewLength className isExpanded = Plain className content /\
     toggleOf (render content maxPreviewLength className isExpanded) = None)
  /\
  (maxPreviewLength < len ->
   exists (wrapper shown rest size : string) (toggle : Button),
     render content maxPreviewLength className initialIsExpanded
       = Collapsed wrapper (shown +:+ "...") toggle /\
     content = shown +:+ rest /\
     String.length shown = Z.to_nat maxPreviewLength /\
     label toggle = t "logs.expand" +:+ " (" +:+ size +:+ "KB)" /\
     size = number_text (ceil_div len 1024) /\
     option_map Z.of_int (NilZero.int_of_string size) = Some (ceil_div len 1024) /\
     1024 * (ceil_div len 1024 - 1) < len <= 1024 * ceil_div len 1024)
  /\
  (exists (wrapper : string) (toggle : Button),
     CollapsibleContent (MkProps (Samples.xs 500) None (Some className)) initialIsExpanded
       = Collapsed wrapper (Samples.xs 200 +:+ "...") toggle /\
     label toggle = t "logs.expand" +:+ " (1KB)")
  /\
  (exists (wrapper : string) (toggle : Button),
     CollapsibleContent (MkProps (Samples.xs 1025) None (Some className)) initialIsExpanded
       = Collapsed wrapper (Samples.xs 200 +:+ "...") toggle /\
     label toggle = t "logs.expand" +:+ " (2KB)")
  /\
  (exists (wrapper : string) (toggle : Button),
     CollapsibleContent (MkProps (Samples.xs (10 * 1024 + 1)) (Some 3) (Some className))
       initialIsExpanded
       = Collapsed wrapper ("xxx" +:+ "...") toggle /\
     label toggle = t "logs.expand" +:+ " (11KB)").
Proof.
  intros len. split; [|split; [|split; [|split]]].
  - intros Hle isExpanded. rewrite (render_short _ _ _ _ Hle). split; reflexivity.
  - intros Hlt. unfold initialIsExpanded. rewrite (render_long _ _ _ _ Hlt).
    rewrite (js_substring_shorter _ _ Hlt).
    destruct (substring_prefix (Z.to_nat maxPreviewLength) content) as [Hlen [rest Hrest]];
      [subst len; lia|].
    eexists _, _, rest, _, _. split; [reflexivity|].
    split; [exact Hrest|]. split; [exact Hlen|]. split; [reflexivity|].
    split; [reflexivity|]. split; [apply number_text_reads_back|].
    apply ceil_div_spec. lia.
  - eexists _, _. split.
    + unfold CollapsibleWidget.CollapsibleContent, initialIsExpanded.
      cbn [CollapsibleWidget.content CollapsibleWidget.maxPreviewLength
           CollapsibleWidget.className].
      rewrite render_long by (vm_compute; reflexivity).
      vm_compute. reflexivity.
    + vm_compute. reflexivity.
  - eexists _, _. split.
    + unfold CollapsibleWidget.CollapsibleContent, initialIsExpanded.
      cbn [CollapsibleWidget.content CollapsibleWidget.maxPreviewLength
           CollapsibleWidget.className].
      rewrite render_long by (vm_compute; reflexivity).
      vm_compute. reflexivity.
    + vm_compute. reflexivity.
  - eexists _, _. split.
    + unfold CollapsibleWidget.CollapsibleContent, initialIsExpanded.
      cbn [CollapsibleWidget.content CollapsibleWidget.maxPreviewLength
           CollapsibleWidget.className].
      rewrite render_long by (vm_compute; reflexivity).
      vm_compute. reflexivity.
    + vm_compute. reflexivity.
Qed.

(** C8. For a content longer than [maxPreviewLength] the expanded view shows
    [JSON.stringify(JSON.parse(content), null, 2)] when the content parses as
    JSON, and the content itself when parsing throws. *)
Theorem C8_expanded_view (content : string) (maxPreviewLength : Z) (className : string) :
  maxPreviewLength < Z.of_nat (String.length content) ->
  exists (wrapper body : string) (toggle : Button),
    render content maxPreviewLength className true = Expanded wrapper body toggle /\
    (forall parsed : JsValue,
        JSON_parse content = Resolved parsed -> body = JSON_stringify parsed 2) /\
    (forall e : Thrown, JSON_parse content = Rejected e -> body = content).
Proof.
  intros Hlt. rewrite (render_long _ _ _ _ Hlt).
  eexists _, _, _. split; [reflexivity|].
  unfold CollapsibleWidget.formatContent.
  split; intros x Hx; rewrite Hx; reflexivity.
Qed.

(** C9. For a content longer than [maxPreviewLength] the widget starts
    collapsed, every click on the toggle flips the state, and expanding then
    collapsing brings back exactly the view it started with. *)
Theorem C9_toggle_round_trip (content : string) (maxPreviewLength : Z)
    (className : string) :
  maxPreviewLength < Z.of_nat (String.length content) ->
  let view := render content maxPreviewLength className in
  let click := clickToggle content maxPreviewLength className in
  initialIsExpanded = false /\
  (exists (wrapper shown : string) (toggle : Button),
      view initialIsExpanded = Collapsed wrapper shown toggle) /\
  (forall isExpanded : bool, click isExpanded = negb isExpanded) /\
  (exists (wrapper body : string) (toggle : Button),
      view (click initialIsExpanded) = Expanded wrapper body toggle) /\
  view (click (click initialIsExpanded)) = view initialIsExpanded.
Proof.
  intros Hlt view click.
  assert (Hflip : forall b : bool, click b = negb b).
  { intros b. subst click. unfold CollapsibleWidget.clickToggle, CollapsibleWidget.click.
    rewrite (render_long _ _ _ _ Hlt). destruct b; reflexivity. }
  split; [reflexivity|]. split.
  - subst view. unfold initialIsExpanded. rewrite (render_long _ _ _ _ Hlt).
    eexists _, _, _. reflexivity.
  - split; [exact Hflip|]. split.
    + rewrite Hflip. subst view. unfold initialIsExpanded. simpl negb.
      rewrite (render_long _ _ _ _ Hlt). eexists _, _, _. reflexivity.
    + rewrite !Hflip. now rewrite Bool.negb_involutive.
Qed.

End CollapsibleContentFacts.

(** The three statements on the sample parser: a short text, runs of the
    letter x, a literal that parses and a text that does not. *)
Lemma C7_preview_and_size_label_witness :
  (forall isExpanded : bool,
      CollapsibleWidget.render Samples.t Samples.styles Samples.Literal
        Samples.JSON_parse Samples.JSON_stringify "abc" 200 "log" isExpanded
      = CollapsibleWidget.Plain "log" "abc" /\
      CollapsibleWidget.toggleOf
        (CollapsibleWidget.render Samples.t Samples.styles Samples.Literal
           Samples.JSON_parse Samples.JSON_stringify "abc" 200 "log" isExpanded) = None) /\
  (exists (wrapper shown rest size : string) (toggle : CollapsibleWidget.Button),
      CollapsibleWidget.render Samples.t Samples.styles Samples.Literal
        Samples.JSON_parse Samples.JSON_stringify (Samples.xs 3000) 200 "log"
        CollapsibleWidget.initialIsExpanded
      = CollapsibleWidget.Collapsed wrapper (shown +:+ "...") toggle /\
      Samples.xs 3000 = shown +:+ rest /\
      String.length shown = Z.to_nat 200 /\
      CollapsibleWidget.label toggle
      = Samples.t "logs.expand" +:+ " (" +:+ size +:+ "KB)" /\
      size = Js.number_text (Js.ceil_div (Z.of_nat (String.length (Samples.xs 3000))) 1024) /\
      option_map Z.of_int (NilZero.int_of_string size)
      = Some (Js.ceil_div (Z.of_nat (String.length (Samples.xs 3000))) 1024) /\
      1024 * (Js.ceil_div (Z.of_nat (String.length (Samples.xs 3000))) 1024 - 1)
      < Z.of_nat (String.length (Samples.xs 3000))
      <= 1024 * Js.ceil_div (Z.of_nat (String.length (Samples.xs 3000))) 1024) /\
  Js.ceil_div (Z.of_nat (String.length (Samples.xs 3000))) 1024 = 3 /\
  Js.number_text 3 = "3".
Proof.
  split; [|split; [|split]].
  - apply (proj1 (C7_preview_and_size_label Samples.t Samples.styles Samples.Literal
                    Samples.JSON_parse Samples.JSON_stringify "abc" 200 "log")).
    simpl. lia.
  - apply (proj1 (proj2 (C7_preview_and_size_label Samples.t Samples.styles Samples.Literal
                           Samples.JSON_parse Samples.JSON_stringify
                           (Samples.xs 3000) 200 "log"))).
    vm_compute. reflexivity.
  - vm_compute. reflexivity.
  - vm_compute. reflexivity.
Defined.

Lemma C8_expanded_view_witness :
  (exists (wrapper body : string) (toggle : CollapsibleWidget.Button),
      CollapsibleWidget.render Samples.t Samples.styles Samples.Literal
        Samples.JSON_parse Samples.JSON_stringify "false" 3 "log" true
      = CollapsibleWidget.Expanded wrapper body toggle /\
      (forall parsed : Samples.Literal,
          Samples.JSON_parse "false" = Js.Resolved parsed ->
          body = Samples.JSON_stringify parsed 2) /\
      (forall e : Js.Thrown, Samples.JSON_parse "false" = Js.Rejected e -> body = "false")) /\
  (exists (wrapper body : string) (toggle : CollapsibleWidget.Button),
      CollapsibleWidget.render Samples.t Samples.styles Samples.Literal
        Samples.JSON_parse Samples.JSON_stringify "{oops" 3 "log" true
      = CollapsibleWidget.Expanded wrapper body toggle /\
      (forall parsed : Samples.Literal,
          Samples.JSON_parse "{oops" = Js.Resolved parsed ->
          body = Samples.JSON_stringify parsed 2) /\
      (forall e : Js.Thrown, Samples.JSON_parse "{oops" = Js.Rejected e -> body = "{oops")).
Proof.
  split.
  - apply (C8_expanded_view Samples.t Samples.styles Samples.Literal
             Samples.JSON_parse Samples.JSON_stringify "false" 3 "log").
    simpl. lia.
  - apply (C8_expanded_view Samples.t Samples.styles Samples.Literal
             Samples.JSON_parse Samples.JSON_stringify "{oops" 3 "log").
    simpl. lia.
Defined.

Lemma C9_toggle_round_trip_witness :
  let view :=
    CollapsibleWidget.render Samples.t Samples.styles Samples.Literal
      Samples.JSON_parse Samples.JSON_stringify (Samples.xs 500) 200 "log" in
  let click :=
    CollapsibleWidget.clickToggle Samples.t Samples.styles Samples.Literal
      Samples.JSON_parse Samples.JSON_stringify (Samples.xs 500) 200 "log" in
  CollapsibleWidget.initialIsExpanded = false /\
  (exists (wrapper shown : string) (toggle : CollapsibleWidget.Button),
      view CollapsibleWidget.initialIsExpanded
      = CollapsibleWidget.Collapsed wrapper shown toggle) /\
  (forall isExpanded : bool, click isExpanded = negb isExpanded) /\
  (exists (wrapper body : string) (toggle : CollapsibleWidget.Button),
      view (click CollapsibleWidget.initialIsExpanded)
      = CollapsibleWidget.Expanded wrapper body toggle) /\
  view (click (click CollapsibleWidget.initialIsExpanded))
  = view CollapsibleWidget.initialIsExpanded.
Proof.
  apply (C9_toggle_round_trip Samples.t Samples.styles Samples.Literal
           Samples.JSON_parse Samples.JSON_stringify (Samples.xs 500) 200 "log").
  vm_compute. reflexivity.
Defined.

(** ** QuotaPage: running tasks *)

Section RunFacts.

Import Js QuotaPage.

Variable Data : Type.
Variable QS : Type.

Local Abbreviation Task := (Task Data QS).
Local Abbreviation World := (World Data).
Local Abbreviation Page := (Page QS).

Lemma prepend_nil {A : Type} (r : Outcome A * Page * list Event) : prepend [] r = r.
Proof. destruct r as [[o s] tr]. reflexivity. Qed.

Lemma prepend_prepend {A : Type} (l1 l2 : list Event) (r : Outcome A * Page * list Event) :
  prepend l1 (prepend l2 r) = prepend (l1 ++ l2) r.
Proof. destruct r as [[o s] tr]. unfold prepend. simpl. now rewrite app_assoc. Qed.

Lemma prepend_andThen {A B : Type} (l : list Event) (r : Outcome A * Page * list Event)
    (f : A -> Page -> Outcome B * Page * list Event) :
  prepend l (andThen r f) = andThen (prepend l r) f.
Proof.
  destruct r as [[[a|e] s] tr]; simpl; [|reflexivity].
  now rewrite prepend_prepend.
Qed.

Lemma prepend_orElse {A : Type} (l : list Event) (r : Outcome A * Page * list Event)
    (h : Thrown -> Page -> Outcome A * Page * list Event) :
  prepend l (orElse r h) = orElse (prepend l r) h.
Proof.
  destruct r as [[[a|e] s] tr]; simpl; [reflexivity|].
  now rewrite prepend_prepend.
Qed.

Lemma prepend_andFinally {A : Type} (l : list Event) (r : Outcome A * Page * list Event)
    (c : Page -> Outcome unit * Page * list Event) :
  prepend l (andFinally r c) = andFinally (prepend l r) c.
Proof.
  destruct r as [[o s] tr]. simpl.
  destruct (c s) as [[[u|e] s'] tr']; unfold prepend; simpl; now rewrite app_assoc.
Qed.

Lemma run_bind {A B : Type} (w : World) (m : Task A) (f : A -> Task B) (s : Page) :
  run w (bind m f) s = andThen (run w m s) (fun a s1 => run w (f a) s1).
Proof.
  revert s.
  induction m as [a|e|k IH|g k IH|e k IH|k IH|k IH|i fs k IH]; intros s; cbn [bind run].
  - cbn [andThen]. now rewrite prepend_nil.
  - reflexivity.
  - apply IH.
  - apply IH.
  - rewrite IH. apply prepend_andThen.
  - rewrite IH. apply prepend_andThen.
  - rewrite IH. apply prepend_andThen.
  - rewrite IH. apply prepend_andThen.
Qed.

Lemma run_try_catch {A : Type} (w : World) (m : Task A) (h : Thrown -> Task A) (s : Page) :
  run w (try_catch m h) s = orElse (run w m s) (fun e s1 => run w (h e) s1).
Proof.
  revert s.
  induction m as [a|e|k IH|g k IH|e k IH|k IH|k IH|i fs k IH]; intros s;
    cbn [try_catch run].
  - reflexivity.
  - cbn [orElse]. now rewrite prepend_nil.
  - apply IH.
  - apply IH.
  - rewrite IH. apply prepend_orElse.
  - rewrite IH. apply prepend_orElse.
  - rewrite IH. apply prepend_orElse.
  - rewrite IH. apply prepend_orElse.
Qed.

Lemma run_try_finally {A : Type} (w : World) (m : Task A) (c : Task unit) (s : Page) :
  run w (try_finally m c) s = andFinally (run w m s) (fun s1 => run w c s1).
Proof.
  revert s.
  induction m as [a|e|k IH|g k IH|e k IH|k IH|k IH|i fs k IH]; intros s;
    cbn [try_finally run].
  - rewrite run_bind. cbn [andFinally].
    destruct (run w c s) as [[[u|e] s'] tr']; cbn; unfold prepend; cbn; now rewrite ?app_nil_r.
  - rewrite run_bind. cbn [andFinally].
    destruct (run w c s) as [[[u|e'] s'] tr']; cbn; unfold prepend; cbn; now rewrite ?app_nil_r.
  - apply IH.
  - apply IH.
  - rewrite IH. apply prepend_andFinally.
  - rewrite IH. apply prepend_andFinally.
  - rewrite IH. apply prepend_andFinally.
  - rewrite IH. apply prepend_andFinally.
Qed.

Lemma fst_prepend {A : Type} (l : list Event) (r : Outcome A * Page * list Event) :
  fst (prepend l r) = fst r.
Proof. destruct r as [[o s] tr]. reflexivity. Qed.

(** A run is its synchronous prefix, then the rest of the task on the way
    the pending request settles, in the state left by whatever happened
    during the suspension. *)
Lemma run_start {A : Type} (w : World) (m : Task A) (s : Page) :
  fst (run w m s) =
  match start m s with
  | (Finished o, s') => (o, s')
  | (OnConfigYaml k, s') =>
      fst (run w (k (fetchConfigYaml w)) (whileSuspended w AtConfigYaml s'))
  | (OnList k, s') =>
      fst (run w (k (list_ w)) (whileSuspended w AtList s'))
  | (OnQuotas i fs k, s') =>
      fst (run w (k (map (fetchQuota w i) fs)) (whileSuspended w (AtQuotas i) s'))
  end.
Proof.
  revert s.
  induction m as [a|e|k IH|g k IH|e k IH|k IH|k IH|i fs k IH]; intros s;
    cbn [run start]; rewrite ?fst_prepend; auto.
Qed.

End RunFacts.

(** ** QuotaPage: the callbacks *)

Section QuotaPageFacts.

Import Js QuotaPage.

Variable Data : Type.
Variable QS : Type.
Variable t : string -> string.
Variable ANTIGRAVITY_CONFIG : QuotaConfig Data QS.
Variable CODEX_CONFIG : QuotaConfig Data QS.
Variable GEMINI_CLI_CONFIG : QuotaConfig Data QS.
Variable CLAUDE_CONFIG : QuotaConfig Data QS.

Local Abbreviation Task := (Task Data QS).
Local Abbreviation World := (World Data).
Local Abbreviation Page := (Page QS).
Local Abbreviation loadConfig := (loadConfig Data QS t).
Local Abbreviation loadFiles := (loadFiles Data QS t).
Local Abbreviation configs :=
  (configs Data QS ANTIGRAVITY_CONFIG CODEX_CONFIG GEMINI_CLI_CONFIG CLAUDE_CONFIG).
Local Abbreviation quotaLoop := (quotaLoop Data QS t).
Local Abbreviation refreshAllQuotas :=
  (refreshAllQuotas Data QS t ANTIGRAVITY_CONFIG CODEX_CONFIG GEMINI_CLI_CONFIG CLAUDE_CONFIG).
Local Abbreviation refreshFailed := (errorMessageOf t "notification.refresh_failed").

(** A tear-down touches nothing but the flags of the invocations. *)
Lemma teardown_frame (s : Page) :
  connectionStatus (teardown s) = connectionStatus s /\
  files (teardown s) = files s /\
  loading (teardown s) = loading s /\
  error (teardown s) = error s /\
  refreshingAll (teardown s) = refreshingAll s /\
  refreshAllAbortRef (teardown s) = refreshAllAbortRef s /\
  quotaStore (teardown s) = quotaStore s.
Proof. unfold teardown. destruct (refreshAllAbortRef s) eqn:E; simpl; rewrite ?E; tauto. Qed.

Lemma whileSuspended_frame (w : World) (p : AwaitPoint) (s : Page) :
  connectionStatus (whileSuspended w p s) = connectionStatus s /\
  files (whileSuspended w p s) = files s /\
  loading (whileSuspended w p s) = loading s /\
  error (whileSuspended w p s) = error s /\
  refreshingAll (whileSuspended w p s) = refreshingAll s /\
  refreshAllAbortRef (whileSuspended w p s) = refreshAllAbortRef s /\
  quotaStore (whileSuspended w p s) = quotaStore s.
Proof.
  unfold whileSuspended. destruct (decide (unmountDuring w = Some p)).
  - apply teardown_frame.
  - tauto.
Qed.

(** *** The quota maps *)

Lemma quotaOf_callSetter (setter setter' : string)
    (updater : gmap string QS -> gmap string QS) (s : Page) :
  quotaOf (callSetter setter updater s) setter'
  = if decide (setter = setter') then updater (quotaOf s setter) else quotaOf s setter'.
Proof.
  unfold quotaOf, callSetter. cbn.
  destruct (decide (setter = setter')) as [->|Hne].
  - now rewrite lookup_insert_eq.
  - now rewrite lookup_insert_ne.
Qed.

Lemma quotaOf_whileSuspended (w : World) (p : AwaitPoint) (s : Page) (setter : string) :
  quotaOf (whileSuspended w p s) setter = quotaOf s setter.
Proof.
  unfold quotaOf.
  pose proof (whileSuspended_frame w p s) as (_ & _ & _ & _ & _ & _ & Hq).
  now rewrite Hq.
Qed.

(** A key that names none of the files is left alone by [markLoading]. *)
Lemma markLoading_other (config : QuotaConfig Data QS) (fs : list AuthFileItem)
    (prev : gmap string QS) (n : string) :
  ~ In n (map name fs) -> markLoading config fs prev !! n = prev !! n.
Proof.
  unfold markLoading. revert prev.
  induction fs as [|f fs IH]; intros prev Hn; cbn [fold_left]; [reflexivity|].
  cbn [map In] in Hn. rewrite IH by tauto.
  apply lookup_insert_ne. tauto.
Qed.

(** Every file gets the loading state. *)
Lemma markLoading_marked (config : QuotaConfig Data QS) (fs : list AuthFileItem)
    (prev : gmap string QS) (f : AuthFileItem) :
  In f fs -> markLoading config fs prev !! name f = Some (buildLoadingState config).
Proof.
  unfold markLoading. revert prev.
  induction fs as [|g fs IH] using rev_ind; intros prev Hf; [destruct Hf|].
  rewrite fold_left_app. cbn [fold_left].
  destruct (decide (name g = name f)) as [E|E].
  - rewrite E. apply lookup_insert_eq.
  - rewrite lookup_insert_ne by exact E. apply IH.
    apply in_app_or in Hf. destruct Hf as [Hf|[Hf|[]]]; [exact Hf|].
    subst g. contradiction.
Qed.

Lemma markLoading_keeps (config : QuotaConfig Data QS) (fs : list AuthFileItem)
    (prev : gmap string QS) (n : string) :
  is_Some (prev !! n) -> is_Some (markLoading config fs prev !! n).
Proof.
  unfold markLoading. revert prev.
  induction fs as [|f fs IH]; intros prev Hn; cbn [fold_left]; [exact Hn|].
  apply IH. destruct (decide (name f = n)) as [<-|E].
  - rewrite lookup_insert_eq. eauto.
  - now rewrite lookup_insert_ne.
Qed.

(** The state written for a file, from the way its fetch settled. *)
Lemma mergeResults_other (config : QuotaConfig Data QS) (fs : list AuthFileItem)
    (out : AuthFileItem -> Outcome Data) (prev : gmap string QS) (n : string) :
  ~ In n (map name fs) ->
  mergeResults t config (map (fun f => resultOf t f (out f)) fs) prev !! n = prev !! n.
Proof.
  unfold mergeResults. revert prev.
  induction fs as [|f fs IH]; intros prev Hn; cbn [map fold_left]; [reflexivity|].
  cbn [map In] in Hn. rewrite IH by tauto.
  unfold resultOf. destruct (out f); apply lookup_insert_ne; tauto.
Qed.

Lemma mergeResults_keeps (config : QuotaConfig Data QS) (results : list (FetchResult Data))
    (prev : gmap string QS) (n : string) :
  is_Some (prev !! n) -> is_Some (mergeResults t config results prev !! n).
Proof.
  unfold mergeResults. revert prev.
  induction results as [|r rs IH]; intros prev Hn; cbn [fold_left]; [exact Hn|].
  apply IH. destruct r as [m d|m e st];
    (destruct (decide (m = n)) as [<-|E];
     [rewrite lookup_insert_eq; eauto | now rewrite lookup_insert_ne]).
Qed.

Lemma mergeResults_merged (config : QuotaConfig Data QS) (fs : list AuthFileItem)
    (out : AuthFileItem -> Outcome Data) (prev : gmap string QS) (f : AuthFileItem) :
  In f fs ->
  (forall g : AuthFileItem, In g fs -> name g = name f -> g = f) ->
  mergeResults t config (map (fun f => resultOf t f (out f)) fs) prev !! name f
  = Some (match out f with
          | Resolved data => buildSuccessState config data
          | Rejected err =>
              buildErrorState config
                (or_else (errorMessageOf t "common.unknown_error" err)
                         (t "common.unknown_error"))
                (status err)
          end).
Proof.
  unfold mergeResults. revert prev.
  induction fs as [|g fs IH] using rev_ind; intros prev Hf Huniq; [destruct Hf|].
  rewrite map_app, fold_left_app. cbn [map fold_left].
  destruct (decide (name g = name f)) as [E|E].
  - assert (g = f) as -> by (apply Huniq; [apply in_or_app; right; left; reflexivity | exact E]).
    unfold resultOf. destruct (out f); apply lookup_insert_eq.
  - assert (Hin : In f fs).
    { apply in_app_or in Hf. destruct Hf as [Hf|[Hf|[]]]; [exact Hf|].
      subst g. contradiction. }
    transitivity
      (fold_left
         (fun nextState result =>
            match result with
            | Success n data => <[n := buildSuccessState config data]> nextState
            | Failure n err errorStatus =>
                <[n := buildErrorState config (or_else err (t "common.unknown_error"))
                         errorStatus]> nextState
            end)
         (map (fun f0 => resultOf t f0 (out f0)) fs) prev !! name f).
    + unfold resultOf at 1. destruct (out g); apply lookup_insert_ne; exact E.
    + apply IH; [exact Hin|].
      intros h Hh. apply Huniq. apply in_or_app. left. exact Hh.
Qed.

(** *** The promises of one provider *)

Lemma fetchOne_resolves (file : AuthFileItem) (fetched : Outcome Data) :
  fetchOne t file fetched = Resolved (resultOf t file fetched).
Proof. destruct fetched; reflexivity. Qed.

(** Whatever fetches fail, the [Promise.all] resolves, with one result per
    file and in the order of the files. *)
Lemma promise_all_fetchOne (fs : list AuthFileItem) (out : AuthFileItem -> Outcome Data) :
  promise_all (zip_with (fetchOne t) fs (map out fs))
  = Resolved (map (fun f => resultOf t f (out f)) fs).
Proof.
  induction fs as [|f fs IH]; [reflexivity|].
  cbn [map zip_with promise_all]. rewrite fetchOne_resolves, IH. reflexivity.
Qed.

(** *** One turn of the loop *)

Lemma run_quotaLoop_nil (w : World) (self i : nat) (filesList : list AuthFileItem) (s : Page) :
  run w (quotaLoop self i [] filesList) s = (Resolved tt, s, []).
Proof. reflexivity. Qed.

Lemma run_quotaLoop_cons (w : World) (self i : nat) (config : QuotaConfig Data QS)
    (rest : list (QuotaConfig Data QS)) (filesList : list AuthFileItem) (s : Page) :
  run w (quotaLoop self i (config :: rest) filesList) s =
  if bool_decide (self ∈ aborted s) then (Resolved tt, s, [])
  else
    let filteredFiles := List.filter (filterFn config) filesList in
    if Nat.eqb (length filteredFiles) 0 then run w (quotaLoop self (S i) rest filesList) s
    else
      let s1 :=
        whileSuspended w (AtQuotas i)
          (callSetter (storeSetter config) (markLoading config filteredFiles) s) in
      prepend (EvSetLoading i :: map (EvFetchQuota i) filteredFiles)
        (if bool_decide (self ∈ aborted s1) then (Resolved tt, s1, [])
         else
           prepend [EvMerge i]
             (run w (quotaLoop self (S i) rest filesList)
                (callSetter (storeSetter config)
                   (mergeResults t config
                      (map (fun f => resultOf t f (fetchQuota w i f)) filteredFiles))
                   s1))).
Proof.
  cbn [QuotaPage.quotaLoop readAborted read bind run].
  destruct (bool_decide (self ∈ aborted s)); [reflexivity|].
  cbv zeta.
  destruct (Nat.eqb (length (List.filter (filterFn config) filesList)) 0); [reflexivity|].
  cbn [emit update bind run]. rewrite promise_all_fetchOne.
  cbn [settled bind run].
  rewrite prepend_prepend. cbn [app].
  set (s1 := whileSuspended w (AtQuotas i) _).
  destruct (bool_decide (self ∈ aborted s1)); reflexivity.
Qed.

(** *** Upserts *)

Lemma upserted_refl (touched : string -> string -> Prop) (s : Page) : upserted touched s s.
Proof. intros setter n. split; [tauto | left; reflexivity]. Qed.

Lemma upserted_trans (touched : string -> string -> Prop) (s1 s2 s3 : Page) :
  upserted touched s1 s2 -> upserted touched s2 s3 -> upserted touched s1 s3.
Proof.
  intros H12 H23 setter n.
  destruct (H12 setter n) as [K12 [E12|T12]], (H23 setter n) as [K23 [E23|T23]];
    split; try tauto; try (right; assumption).
  left. congruence.
Qed.

Lemma upserted_mono (touched touched' : string -> string -> Prop) (s s' : Page) :
  (forall setter n, touched setter n -> touched' setter n) ->
  upserted touched s s' -> upserted touched' s s'.
Proof.
  intros Hsub H setter n. destruct (H setter n) as [K [E|T]]; split; auto.
Qed.

Lemma upserted_same_store (touched : string -> string -> Prop) (s s' : Page) :
  quotaStore s' = quotaStore s -> upserted touched s s'.
Proof.
  intros E setter n. unfold quotaOf. rewrite E. split; [tauto | left; reflexivity].
Qed.

(** The two writes of a turn. *)
Lemma upserted_markLoading (config : QuotaConfig Data QS) (filesList : list AuthFileItem)
    (s : Page) :
  upserted (matched [config] filesList) s
    (callSetter (storeSetter config)
       (markLoading config (List.filter (filterFn config) filesList)) s).
Proof.
  intros setter n. rewrite quotaOf_callSetter.
  destruct (decide (storeSetter config = setter)) as [<-|Hne];
    [|split; [tauto | left; reflexivity]].
  split; [apply markLoading_keeps|].
  destruct (in_dec string_dec n (map name (List.filter (filterFn config) filesList)))
    as [Hin|Hout].
  - right. apply in_map_iff in Hin. destruct Hin as (f & Hname & Hf).
    apply filter_In in Hf. destruct Hf as [Hf Hsel].
    exists config, f. cbn [In]. tauto.
  - left. now apply markLoading_other.
Qed.

Lemma upserted_mergeResults (config : QuotaConfig Data QS) (filesList : list AuthFileItem)
    (out : AuthFileItem -> Outcome Data) (s : Page) :
  upserted (matched [config] filesList) s
    (callSetter (storeSetter config)
       (mergeResults t config
          (map (fun f => resultOf t f (out f)) (List.filter (filterFn config) filesList)))
       s).
Proof.
  intros setter n. rewrite quotaOf_callSetter.
  destruct (decide (storeSetter config = setter)) as [<-|Hne];
    [|split; [tauto | left; reflexivity]].
  split; [apply mergeResults_keeps|].
  destruct (in_dec string_dec n (map name (List.filter (filterFn config) filesList)))
    as [Hin|Hout].
  - right. apply in_map_iff in Hin. destruct Hin as (f & Hname & Hf).
    apply filter_In in Hf. destruct Hf as [Hf Hsel].
    exists config, f. cbn [In]. tauto.
  - left. now apply mergeResults_other.
Qed.

Lemma matched_cons_head (config : QuotaConfig Data QS) (rest : list (QuotaConfig Data QS))
    (filesList : list AuthFileItem) (setter n : string) :
  matched [config] filesList setter n -> matched (config :: rest) filesList setter n.
Proof.
  intros (c & f & [<-|[]] & H). exists config, f. cbn [In]. tauto.
Qed.

Lemma matched_cons_tail (config : QuotaConfig Data QS) (rest : list (QuotaConfig Data QS))
    (filesList : list AuthFileItem) (setter n : string) :
  matched rest filesList setter n -> matched (config :: rest) filesList setter n.
Proof.
  intros (c & f & Hc & H). exists c, f. cbn [In]. tauto.
Qed.

(** *** The loop as a whole *)

(** The loop returns, whatever the requests and the tear-down do; it leaves
    the cells of the page alone; and it only upserts the quota maps, at the
    names of the files its descriptors select. *)
Lemma quotaLoop_runs (w : World) (self : nat) (filesList : list AuthFileItem)
    (cfgs : list (QuotaConfig Data QS)) (i : nat) (s : Page) :
  exists (s' : Page) (tr : list Event),
    run w (quotaLoop self i cfgs filesList) s = (Resolved tt, s', tr) /\
    upserted (matched cfgs filesList) s s' /\
    connectionStatus s' = connectionStatus s /\
    files s' = files s /\
    loading s' = loading s /\
    error s' = error s /\
    refreshingAll s' = refreshingAll s /\
    refreshAllAbortRef s' = refreshAllAbortRef s.
Proof.
  revert i s. induction cfgs as [|config rest IH]; intros i s.
  - exists s, []. split; [reflexivity|]. split; [apply upserted_refl | tauto].
  - rewrite run_quotaLoop_cons.
    destruct (bool_decide (self ∈ aborted s)).
    { exists s, []. split; [reflexivity|]. split; [apply upserted_refl | tauto]. }
    cbv zeta.
    destruct (Nat.eqb (length (List.filter (filterFn config) filesList)) 0).
    { destruct (IH (S i) s) as (s' & tr & Hrun & Hup & Hframe).
      exists s', tr. split; [exact Hrun|]. split; [|exact Hframe].
      eapply upserted_mono; [|exact Hup]. intros; now apply matched_cons_tail. }
    set (sM := callSetter (storeSetter config)
                 (markLoading config (List.filter (filterFn config) filesList)) s).
    set (s1 := whileSuspended w (AtQuotas i) sM).
    assert (HupM : upserted (matched (config :: rest) filesList) s s1).
    { apply upserted_trans with sM.
      - eapply upserted_mono; [|apply upserted_markLoading].
        intros; now apply matched_cons_head.
      - apply upserted_same_store. apply whileSuspended_frame. }
    pose proof (whileSuspended_frame w (AtQuotas i) sM) as (Fc & Ff & Fl & Fe & Fr & Fa & _).
    fold s1 in Fc, Ff, Fl, Fe, Fr, Fa.
    destruct (bool_decide (self ∈ aborted s1)).
    { eexists s1, _. split; [reflexivity|]. split; [exact HupM|].
      rewrite Fc, Ff, Fl, Fe, Fr, Fa. cbn. tauto. }
    set (s2 := callSetter (storeSetter config) _ s1).
    destruct (IH (S i) s2) as (s' & tr & Hrun & Hup & Gc & Gf & Gl & Ge & Gr & Ga).
    rewrite Hrun. eexists s', _. split; [reflexivity|]. split.
    + eapply upserted_trans; [exact HupM|]. apply upserted_trans with s2.
      * eapply upserted_mono; [|subst s2; apply upserted_mergeResults].
        intros; now apply matched_cons_head.
      * eapply upserted_mono; [|exact Hup]. intros; now apply matched_cons_tail.
    + rewrite Gc, Gf, Gl, Ge, Gr, Ga. subst s2. cbn.
      rewrite Fc, Ff, Fl, Fe, Fr, Fa. cbn. tauto.
Qed.

(** *** The whole of [refreshAllQuotas] *)

Lemma andThen_ext {A B : Type} (r : Outcome A * Page * list Event)
    (f g : A -> Page -> Outcome B * Page * list Event) :
  (forall a s, f a s = g a s) -> andThen r f = andThen r g.
Proof. intros H. destruct r as [[[a|e] s] tr]; cbn; [now rewrite H | reflexivity]. Qed.

Lemma orElse_ext {A : Type} (r : Outcome A * Page * list Event)
    (f g : Thrown -> Page -> Outcome A * Page * list Event) :
  (forall e s, f e s = g e s) -> orElse r f = orElse r g.
Proof. intros H. destruct r as [[[a|e] s] tr]; cbn; [reflexivity | now rewrite H]. Qed.

Lemma andFinally_ext {A : Type} (r : Outcome A * Page * list Event)
    (c d : Page -> Outcome unit * Page * list Event) :
  (forall s, c s = d s) -> andFinally r c = andFinally r d.
Proof. intros H. destruct r as [[o s] tr]. cbn. now rewrite H. Qed.

Lemma whileSuspended_elsewhere (w : World) (p : AwaitPoint) (s : Page) :
  unmountDuring w <> Some p -> whileSuspended w p s = s.
Proof.
  intros Hne. unfold whileSuspended.
  destruct (decide (unmountDuring w = Some p)); [contradiction | reflexivity].
Qed.

Lemma whileSuspended_here (w : World) (p : AwaitPoint) (s : Page) :
  unmountDuring w = Some p -> whileSuspended w p s = teardown s.
Proof.
  intros He. unfold whileSuspended.
  destruct (decide (unmountDuring w = Some p)); [reflexivity | contradiction].
Qed.

(** A run of [loadConfig]: one request, then at most a new [error]. *)
Lemma run_loadConfig (w : World) (s : Page) :
  run w loadConfig s =
  (Resolved tt,
   match fetchConfigYaml w with
   | Resolved _ => whileSuspended w AtConfigYaml s
   | Rejected err =>
       setError (fun prev => or_else prev (refreshFailed err))
         (whileSuspended w AtConfigYaml s)
   end,
   [EvFetchConfigYaml]).
Proof.
  unfold QuotaPage.loadConfig, configFileApi_fetchConfigYaml.
  cbn [try_catch run].
  destruct (fetchConfigYaml w) as [[]|err]; reflexivity.
Qed.

(** The path of [refreshAllQuotas] past its guard, step by step. *)
Lemma run_refreshAllQuotas (w : World) (self : nat) (s : Page) :
  refreshingAll s = false ->
  disableControls s = false ->
  run w (refreshAllQuotas self) s =
  andFinally
    (orElse
       (let sC := snd (fst (run w loadConfig
                              (installAbort self
                                 (setError (fun _ => "") (setRefreshingAll true s))))) in
        prepend [EvFetchConfigYaml]
          (if bool_decide (self ∈ aborted sC) then (Resolved tt, sC, [])
           else
             let sL := whileSuspended w AtList sC in
             prepend [EvList]
               (match list_ w with
                | Rejected err => (Rejected err, sL, [])
                | Resolved latestFiles =>
                    if bool_decide (self ∈ aborted sL) then (Resolved tt, sL, [])
                    else
                      run w (quotaLoop self 0 configs (filesOrEmpty latestFiles))
                        (setFiles (filesOrEmpty latestFiles) sL)
                end)))
       (fun err s3 => (Resolved tt, setError (fun _ => refreshFailed err) s3, [])))
    (fun s4 =>
       if bool_decide (self ∈ aborted s4) then (Resolved tt, s4, [])
       else (Resolved tt, setAbortRef None (setRefreshingAll false s4), [])).
Proof.
  intros Hr Hd. unfold QuotaPage.refreshAllQuotas.
  cbn [read bind run]. rewrite Hr, Hd. cbn [orb update bind run].
  rewrite run_try_finally, run_try_catch, run_bind.
  rewrite run_loadConfig. cbn [andThen fst snd].
  set (sC := match fetchConfigYaml w with Resolved _ => _ | Rejected _ => _ end).
  erewrite andFinally_ext; [erewrite orElse_ext; [f_equal; f_equal|]|].
  - cbn [readAborted read bind run]. f_equal.
    destruct (bool_decide (self ∈ aborted sC)); [reflexivity|].
    unfold authFilesApi_list. cbn [bind run]. f_equal.
    destruct (list_ w) as [latestFiles|err]; [|reflexivity].
    cbn [settled bind run].
    destruct (bool_decide (self ∈ aborted (whileSuspended w AtList sC))); reflexivity.
  - intros err s3. reflexivity.
  - intros s4. cbn [readAborted read bind run].
    destruct (bool_decide (self ∈ aborted s4)); reflexivity.
Qed.

(** The guard at the top of [refreshAllQuotas]. *)
Lemma refresh_guarded (w : World) (self : nat) (s : Page) :
  refreshingAll s || disableControls s = true ->
  run w (refreshAllQuotas self) s = (Resolved tt, s, []) /\
  start (refreshAllQuotas self) s = (Finished (Resolved tt), s).
Proof.
  intros Hcond. unfold QuotaPage.refreshAllQuotas. cbn [read bind run start].
  rewrite Hcond. split; reflexivity.
Qed.

(** C3. While a refresh is under way, or while the page is not connected,
    [refreshAllQuotas] returns at once: the whole state is the one it was
    called in (files, loading, error, refreshingAll, the abort reference and
    every quota map) and the trace is empty, so no request was issued. *)
Theorem C3_refresh_guard (w : World) (self : nat) (s : Page) :
  refreshingAll s = true \/ connectionStatus s <> "connected" ->
  run w (refreshAllQuotas self) s = (Resolved tt, s, []) /\
  start (refreshAllQuotas self) s = (Finished (Resolved tt), s).
Proof.
  intros Hguard.
  assert (Hcond : refreshingAll s || disableControls s = true).
  { destruct Hguard as [Hr | Hc].
    - now rewrite Hr.
    - unfold disableControls.
      destruct (String.eqb_spec (connectionStatus s) "connected") as [E|E]; [contradiction|].
      apply orb_true_r. }
  exact (refresh_guarded w self s Hcond).
Qed.

(** C5. [loadFiles] sets [loading] and empties [error] before it suspends on
    the list request, and touches nothing else. Whatever the state is when
    the request settles: if it resolved, [files] becomes the list of the
    answer, the empty list when the answer or its [files] field is missing,
    and [error] is left as it is; if it rejected, [error] becomes the message
    of the failure whatever it held, that is [err.message] for an [Error] and
    the translated "notification.refresh_failed" for any other thrown value,
    and [files] is left as it is; both ways [loading] is cleared, no other
    field changes and nothing is thrown. A whole run of [loadFiles] returns,
    in every world, with [loading] cleared, with the fetched list and an
    empty [error] when the request resolved, and with the message of the
    failure in [error] when it rejected. *)
Theorem C5_loadFiles (s : Page) :
  exists (k : Outcome (option ListResponse) -> Task unit) (s1 : Page),
    start loadFiles s = (OnList k, s1) /\
    loading s1 = true /\
    error s1 = "" /\
    (files s1 = files s /\ connectionStatus s1 = connectionStatus s /\
     refreshingAll s1 = refreshingAll s /\ refreshAllAbortRef s1 = refreshAllAbortRef s /\
     aborted s1 = aborted s /\ quotaStore s1 = quotaStore s) /\
    (forall (s2 : Page) (data : option ListResponse),
        exists s3 : Page,
          start (k (Resolved data)) s2 = (Finished (Resolved tt), s3) /\
          files s3 = filesOrEmpty data /\
          loading s3 = false /\
          error s3 = error s2 /\
          connectionStatus s3 = connectionStatus s2 /\
          refreshingAll s3 = refreshingAll s2 /\
          refreshAllAbortRef s3 = refreshAllAbortRef s2 /\
          aborted s3 = aborted s2 /\
          quotaStore s3 = quotaStore s2) /\
    filesOrEmpty None = [] /\
    filesOrEmpty (Some (MkListResponse None)) = [] /\
    (forall l : list AuthFileItem, filesOrEmpty (Some (MkListResponse (Some l))) = l) /\
    (forall (s2 : Page) (err : Thrown),
        exists s3 : Page,
          start (k (Rejected err)) s2 = (Finished (Resolved tt), s3) /\
          (isError err = true -> error s3 = message err) /\
          (isError err = false -> error s3 = t "notification.refresh_failed") /\
          loading s3 = false /\
          files s3 = files s2 /\
          connectionStatus s3 = connectionStatus s2 /\
          refreshingAll s3 = refreshingAll s2 /\
          refreshAllAbortRef s3 = refreshAllAbortRef s2 /\
          aborted s3 = aborted s2 /\
          quotaStore s3 = quotaStore s2) /\
    (forall w : World,
        exists s' : Page,
          run w loadFiles s = (Resolved tt, s', [EvList]) /\
          loading s' = false /\
          (forall data : option ListResponse,
              list_ w = Resolved data ->
              files s' = filesOrEmpty data /\ error s' = "") /\
          (forall err : Thrown,
              list_ w = Rejected err ->
              files s' = files s /\
              (isError err = true -> error s' = message err) /\
              (isError err = false -> error s' = t "notification.refresh_failed"))).
Proof.
  eexists _, _. split; [reflexivity|].
  split; [reflexivity|]. split; [reflexivity|].
  split; [repeat split; reflexivity|].
  split; [intros s2 data; eexists; split; [reflexivity|]; repeat split; reflexivity|].
  do 3 (split; [reflexivity|]).
  split.
  - intros s2 err. eexists. split; [reflexivity|].
    split; [intros He; cbn; unfold errorMessageOf; now rewrite He|].
    split; [intros He; cbn; unfold errorMessageOf; now rewrite He|].
    repeat split; reflexivity.
  - intros w. unfold QuotaPage.loadFiles, update, authFilesApi_list.
    cbn [bind try_catch try_finally run].
    pose proof (whileSuspended_frame w AtList (setError (fun _ => "") (setLoading true s)))
      as (_ & Hf & _ & He & _).
    destruct (list_ w) as [data|err]; cbn; eexists; (split; [reflexivity|]);
      (split; [reflexivity|]); split.
    + intros data' [= <-]. cbn. split; [reflexivity | exact He].
    + intros err' [=].
    + intros data' [=].
    + intros err' [= <-]. cbn. split; [exact Hf|].
      unfold errorMessageOf. split; intros E; now rewrite E.
Qed.

(** C6. [loadConfig] suspends on the configuration request without touching
    the state. Whatever the state is when the request settles, [loadConfig]
    then returns and never throws. If the request rejected and [error] was
    not empty, the state stays exactly what it was; if [error] was empty, it
    becomes the message of the failure, that is [err.message] for an [Error]
    and the translated "notification.refresh_failed" for any other thrown
    value, and no other field changes. If the request resolved, nothing
    changes. A whole run of [loadConfig] returns, in every world, after that
    one request, with [error] decided the same way. *)
Theorem C6_loadConfig_first_error_wins (s : Page) :
  exists k : Outcome unit -> Task unit,
    start loadConfig s = (OnConfigYaml k, s) /\
    (forall (s2 : Page) (err : Thrown),
        exists s3 : Page,
          start (k (Rejected err)) s2 = (Finished (Resolved tt), s3) /\
          (error s2 <> "" -> s3 = s2) /\
          (error s2 = "" -> isError err = true -> error s3 = message err) /\
          (error s2 = "" -> isError err = false ->
           error s3 = t "notification.refresh_failed") /\
          files s3 = files s2 /\
          loading s3 = loading s2 /\
          connectionStatus s3 = connectionStatus s2 /\
          refreshingAll s3 = refreshingAll s2 /\
          refreshAllAbortRef s3 = refreshAllAbortRef s2 /\
          aborted s3 = aborted s2 /\
          quotaStore s3 = quotaStore s2) /\
    (forall s2 : Page, start (k (Resolved tt)) s2 = (Finished (Resolved tt), s2)) /\
    (forall w : World,
        exists s' : Page,
          run w loadConfig s = (Resolved tt, s', [EvFetchConfigYaml]) /\
          (fetchConfigYaml w = Resolved tt -> error s' = error s) /\
          (forall err : Thrown,
              fetchConfigYaml w = Rejected err ->
              (error s <> "" -> error s' = error s) /\
              (error s = "" -> isError err = true -> error s' = message err) /\
              (error s = "" -> isError err = false ->
               error s' = t "notification.refresh_failed"))).
Proof.
  eexists. split; [reflexivity|]. split; [|split].
  - intros s2 err. eexists. split; [reflexivity|]. split; [|split; [|split]].
    + intros He. destruct s2 as [cs fl ld er ra ar ab qs]. cbn in *.
      unfold setError, or_else. cbn.
      destruct (String.eqb_spec er "") as [E|E]; [contradiction | reflexivity].
    + intros He Hi. cbn. rewrite He. cbn. unfold errorMessageOf. now rewrite Hi.
    + intros He Hi. cbn. rewrite He. cbn. unfold errorMessageOf. now rewrite Hi.
    + repeat split; reflexivity.
  - reflexivity.
  - intros w. unfold QuotaPage.loadConfig. rewrite run_try_catch.
    unfold configFileApi_fetchConfigYaml. cbn [run].
    pose proof (whileSuspended_frame w AtConfigYaml s) as (_ & _ & _ & He & _).
    destruct (fetchConfigYaml w) as [[]|err]; cbn; eexists; (split; [reflexivity|]); split.
    + intros _. exact He.
    + intros err' [=].
    + intros [=].
    + intros err' [= <-]. cbn. rewrite He. unfold or_else, errorMessageOf.
      destruct (String.eqb_spec (error s) "") as [E|E].
      * split; [contradiction|]. split; intros _ Hi; now rewrite Hi.
      * split; [reflexivity|]. split; intros E'; contradiction.
Qed.

(** C10. When the list request of [loadFiles] rejects, the run returns with
    [files] as it was before the call; [error] holds the message of the
    failure, [loading] is cleared, and the connection status, the refresh
    flag, the abort reference and the quota maps are as before. *)
Theorem C10_loadFiles_keeps_files_on_failure (w : World) (s : Page) (err : Thrown) :
  list_ w = Rejected err ->
  exists s' : Page,
    run w loadFiles s = (Resolved tt, s', [EvList]) /\
    files s' = files s /\
    error s' = refreshFailed err /\
    loading s' = false /\
    connectionStatus s' = connectionStatus s /\
    refreshingAll s' = refreshingAll s /\
    refreshAllAbortRef s' = refreshAllAbortRef s /\
    quotaStore s' = quotaStore s.
Proof.
  intros Hlist. unfold QuotaPage.loadFiles, update, authFilesApi_list.
  cbn [bind try_catch try_finally run]. rewrite Hlist. cbn.
  eexists. split; [reflexivity|].
  pose proof (whileSuspended_frame w AtList (setError (fun _ => "") (setLoading true s)))
    as (Hc & Hf & _ & _ & Hr & Ha & Hq).
  cbn. repeat split; assumption.
Qed.

(** C4. Every write of a refresh to a quota map is an upsert at the names
    of the files that the provider selects in the list just fetched: the
    write that sets the loading states and the write that merges the
    results keep every entry of the map they start from and leave an entry
    under any other name as it was; and over a whole run of
    [refreshAllQuotas], in every world and from every state, no entry of
    any quota map is removed and an entry is new or different only under
    the name of a file of the fetched list that a provider with that map
    selects. *)
Theorem C4_quota_maps_only_upserted (w : World) (self : nat) (s : Page) :
  (forall (config : QuotaConfig Data QS) (filesList : list AuthFileItem) (s0 : Page),
      upserted (matched [config] filesList) s0
        (callSetter (storeSetter config)
           (markLoading config (List.filter (filterFn config) filesList)) s0)) /\
  (forall (config : QuotaConfig Data QS) (filesList : list AuthFileItem)
          (out : AuthFileItem -> Outcome Data) (s0 : Page),
      upserted (matched [config] filesList) s0
        (callSetter (storeSetter config)
           (mergeResults t config
              (map (fun f => resultOf t f (out f))
                 (List.filter (filterFn config) filesList)))
           s0)) /\
  upserted
    (fun setter n =>
       exists data : option ListResponse,
         list_ w = Resolved data /\ matched configs (filesOrEmpty data) setter n)
    s (snd (fst (run w (refreshAllQuotas self) s))).
Proof.
  split; [exact upserted_markLoading|]. split; [exact upserted_mergeResults|].
  destruct (refreshingAll s || disableControls s) eqn:Hguard.
  { destruct (refresh_guarded w self s Hguard) as [Hrun _].
    rewrite Hrun. apply upserted_refl. }
  apply orb_false_elim in Hguard. destruct Hguard as [Hr Hd].
  rewrite (run_refreshAllQuotas w self s Hr Hd), run_loadConfig. cbn [fst snd].
  set (s0 := installAbort self (setError (fun _ => "") (setRefreshingAll true s))).
  set (sC := match fetchConfigYaml w with Resolved _ => _ | Rejected _ => _ end).
  assert (HC : quotaStore sC = quotaStore s).
  { subst sC. pose proof (whileSuspended_frame w AtConfigYaml s0) as (_&_&_&_&_&_&Hq).
    destruct (fetchConfigYaml w); cbn; rewrite Hq; reflexivity. }
  cbv zeta.
  set (sL := whileSuspended w AtList sC).
  assert (HL : quotaStore sL = quotaStore s).
  { subst sL. pose proof (whileSuspended_frame w AtList sC) as (_&_&_&_&_&_&Hq).
    now rewrite Hq. }
  destruct (bool_decide (self ∈ aborted sC)).
  { cbn. destruct (bool_decide (self ∈ aborted sC)); cbn;
      now apply upserted_same_store. }
  destruct (list_ w) as [latestFiles|err] eqn:Hlist.
  2:{ cbn. destruct (bool_decide (self ∈ aborted _)); cbn;
        now apply upserted_same_store. }
  destruct (bool_decide (self ∈ aborted sL)).
  { cbn. destruct (bool_decide (self ∈ aborted sL)); cbn;
      now apply upserted_same_store. }
  destruct (quotaLoop_runs w self (filesOrEmpty latestFiles) configs 0
              (setFiles (filesOrEmpty latestFiles) sL))
    as (s' & tr & Hrun & Hup & _).
  rewrite Hrun. cbn.
  assert (Hfinal : upserted
                     (fun setter n =>
                        exists data : option ListResponse,
                          Resolved latestFiles = Resolved data /\
                          matched configs (filesOrEmpty data) setter n)
                     s s').
  { apply upserted_trans with (setFiles (filesOrEmpty latestFiles) sL).
    - now apply upserted_same_store.
    - eapply upserted_mono; [|exact Hup].
      intros setter n Hm. exists latestFiles. split; [reflexivity | exact Hm]. }
  destruct (bool_decide (self ∈ aborted s')); cbn; [exact Hfinal|].
  eapply upserted_trans; [exact Hfinal|]. now apply upserted_same_store.
Qed.

(** *** A tear-down while a provider's fetches are in flight *)

Lemma quotaLoop_unmounted (w : World) (self : nat) (filesList : list AuthFileItem)
    (N : nat) (config : QuotaConfig Data QS) :
  unmountDuring w = Some (AtQuotas N) ->
  List.filter (filterFn config) filesList <> [] ->
  forall (cfgs : list (QuotaConfig Data QS)) (i : nat) (s : Page),
    (i <= N)%nat ->
    cfgs !! (N - i)%nat = Some config ->
    refreshAllAbortRef s = Some self ->
    self ∉ aborted s ->
    exists (s' : Page) (tr : list Event),
      run w (quotaLoop self i cfgs filesList) s = (Resolved tt, s', tr) /\
      self ∈ aborted s' /\
      (forall f : AuthFileItem,
          In f (List.filter (filterFn config) filesList) ->
          quotaOf s' (storeSetter config) !! name f = Some (buildLoadingState config)) /\
      (forall f : AuthFileItem,
          In f (List.filter (filterFn config) filesList) -> In (EvFetchQuota N f) tr) /\
      ~ In (EvMerge N) tr /\
      (forall (e : Event) (j : nat), In e tr -> providerOf e = Some j -> (i <= j <= N)%nat).
Proof.
  intros Hunmount Hsome cfgs.
  induction cfgs as [|c rest IH]; intros i s Hi Hlook Href Hlive; [discriminate|].
  rewrite run_quotaLoop_cons. rewrite (bool_decide_eq_false_2 _ Hlive). cbv zeta.
  destruct (N - i)%nat as [|m] eqn:Hm.
  - (* the turn of the provider whose fetches are interrupted *)
    assert (i = N) as -> by lia. cbn in Hlook. injection Hlook as ->.
    destruct (List.filter (filterFn config) filesList) as [|f0 fs] eqn:Hfs; [contradiction|].
    cbn [length Nat.eqb].
    rewrite (whileSuspended_here _ _ _ Hunmount).
    set (sM := callSetter (storeSetter config) (markLoading config (f0 :: fs)) s).
    assert (Hab : self ∈ aborted (teardown sM)).
    { unfold teardown. subst sM. cbn. rewrite Href. cbn. set_solver. }
    rewrite (bool_decide_eq_true_2 _ Hab).
    eexists _, _. split; [reflexivity|]. split; [exact Hab|]. cbn.
    split; [|split; [|split]].
    + intros f Hf. unfold quotaOf.
      pose proof (teardown_frame sM) as (_&_&_&_&_&_&Hq). rewrite Hq.
      change (quotaOf sM (storeSetter config) !! name f = Some (buildLoadingState config)).
      subst sM. rewrite quotaOf_callSetter.
      destruct (decide (storeSetter config = storeSetter config)); [|contradiction].
      now apply markLoading_marked.
    + intros f Hf. right. rewrite app_nil_r.
      destruct Hf as [<-|Hf]; [now left|]. right. now apply in_map.
    + rewrite app_nil_r. intros [H|[H|H]]; try discriminate.
      apply in_map_iff in H. destruct H as (x & Hx & _). discriminate.
    + rewrite app_nil_r. intros e j [<-|[<-|H]] Hj.
      * cbn in Hj. injection Hj as <-. lia.
      * cbn in Hj. injection Hj as <-. lia.
      * apply in_map_iff in H. destruct H as (x & <- & _).
        cbn in Hj. injection Hj as <-. lia.
  - (* an earlier provider *)
    assert (Hi' : (S i <= N)%nat) by lia.
    assert (Hlook' : rest !! (N - S i)%nat = Some config).
    { replace (N - S i)%nat with m by lia. exact Hlook. }
    destruct (Nat.eqb (length (List.filter (filterFn c) filesList)) 0).
    { destruct (IH (S i) s Hi' Hlook' Href Hlive) as (s' & tr & Hrun & Hab & Hent & Hfetch & Hmerge & Hbound).
      exists s', tr. split; [exact Hrun|]. split; [exact Hab|]. split; [exact Hent|].
      split; [exact Hfetch|]. split; [exact Hmerge|].
      intros e j He Hj. specialize (Hbound e j He Hj). lia. }
    rewrite whileSuspended_elsewhere by (rewrite Hunmount; intros [= E]; lia).
    set (sM := callSetter (storeSetter c) _ s).
    assert (HliveM : self ∉ aborted sM) by exact Hlive.
    rewrite (bool_decide_eq_false_2 _ HliveM).
    set (s2 := callSetter (storeSetter c) _ sM).
    destruct (IH (S i) s2 Hi' Hlook' Href Hlive)
      as (s' & tr & Hrun & Hab & Hent & Hfetch & Hmerge & Hbound).
    rewrite Hrun. eexists s', _. split; [reflexivity|]. split; [exact Hab|].
    split; [exact Hent|]. cbn. split; [|split].
    + intros f Hf. right. apply in_or_app. right. right. now apply Hfetch.
    + intros [H|H]; [discriminate|].
      apply in_app_or in H. destruct H as [H|[H|H]].
      * apply in_map_iff in H. destruct H as (x & Hx & _). discriminate.
      * injection H as E. lia.
      * contradiction.
    + intros e j [<-|H] Hj.
      * cbn in Hj. injection Hj as <-. lia.
      * apply in_app_or in H. destruct H as [H|[<-|H]].
        -- apply in_map_iff in H. destruct H as (x & <- & _).
           cbn in Hj. injection Hj as <-. lia.
        -- cbn in Hj. injection Hj as <-. lia.
        -- specialize (Hbound e j H Hj). lia.
Qed.

(** *** A provider whose wait is not interrupted *)

Lemma quotaLoop_settles (w : World) (self : nat) (filesList : list AuthFileItem)
    (N : nat) (config : QuotaConfig Data QS) (f : AuthFileItem) :
  (forall p : AwaitPoint,
      unmountDuring w = Some p -> exists k : nat, p = AtQuotas k /\ (N < k)%nat) ->
  In f (List.filter (filterFn config) filesList) ->
  (forall g : AuthFileItem,
      In g (List.filter (filterFn config) filesList) -> name g = name f -> g = f) ->
  forall (cfgs : list (QuotaConfig Data QS)) (i : nat) (s : Page),
    (i <= N)%nat ->
    cfgs !! (N - i)%nat = Some config ->
    NoDup (map storeSetter cfgs) ->
    self ∉ aborted s ->
    exists (s' : Page) (tr : list Event),
      run w (quotaLoop self i cfgs filesList) s = (Resolved tt, s', tr) /\
      (forall g : AuthFileItem,
          In g (List.filter (filterFn config) filesList) -> In (EvFetchQuota N g) tr) /\
      In (EvMerge N) tr /\
      quotaOf s' (storeSetter config) !! name f
      = Some (match fetchQuota w N f with
              | Resolved data => buildSuccessState config data
              | Rejected err =>
                  buildErrorState config
                    (or_else (errorMessageOf t "common.unknown_error" err)
                             (t "common.unknown_error"))
                    (status err)
              end).
Proof.
  intros Hlate Hf Huniq cfgs.
  assert (Hcalm : forall i : nat, (i <= N)%nat -> unmountDuring w <> Some (AtQuotas i)).
  { intros i Hi E. destruct (Hlate _ E) as (k & [= ->] & Hk). lia. }
  induction cfgs as [|c rest IH]; intros i s Hi Hlook Hnodup Hlive; [discriminate|].
  rewrite run_quotaLoop_cons. rewrite (bool_decide_eq_false_2 _ Hlive). cbv zeta.
  rewrite (whileSuspended_elsewhere _ _ _ (Hcalm i Hi)).
  cbn [map] in Hnodup. apply NoDup_cons in Hnodup. destruct Hnodup as [Hfresh Hnodup].
  destruct (N - i)%nat as [|m] eqn:Hm.
  - (* the turn of the provider itself *)
    assert (i = N) as -> by lia. cbn in Hlook. injection Hlook as ->.
    destruct (Nat.eqb (length (List.filter (filterFn config) filesList)) 0) eqn:Hlen.
    { apply Nat.eqb_eq in Hlen. apply length_zero_iff_nil in Hlen.
      rewrite Hlen in Hf. destruct Hf. }
    set (sM := callSetter (storeSetter config) _ s).
    assert (HliveM : self ∉ aborted sM) by exact Hlive.
    rewrite (bool_decide_eq_false_2 _ HliveM).
    set (s2 := callSetter (storeSetter config) _ sM).
    destruct (quotaLoop_runs w self filesList rest (S N) s2) as (s' & tr & Hrun & Hup & _).
    rewrite Hrun. eexists s', _. split; [reflexivity|]. cbn. split; [|split].
    + intros g Hg. right. apply in_or_app. left. now apply in_map.
    + right. apply in_or_app. right. now left.
    + destruct (Hup (storeSetter config) (name f)) as [_ [E|Hm']].
      * rewrite E. subst s2. rewrite quotaOf_callSetter.
        destruct (decide (storeSetter config = storeSetter config)); [|contradiction].
        now apply mergeResults_merged.
      * exfalso. destruct Hm' as (c' & g & Hc' & Hsetter & _).
        apply Hfresh. rewrite <- Hsetter. apply list_elem_of_In. now apply in_map.
  - (* an earlier provider *)
    assert (Hi' : (S i <= N)%nat) by lia.
    assert (Hlook' : rest !! (N - S i)%nat = Some config).
    { replace (N - S i)%nat with m by lia. exact Hlook. }
    destruct (Nat.eqb (length (List.filter (filterFn c) filesList)) 0).
    { destruct (IH (S i) s Hi' Hlook' Hnodup Hlive) as (s' & tr & Hrun & Hrest).
      exists s', tr. split; [exact Hrun | exact Hrest]. }
    set (sM := callSetter (storeSetter c) _ s).
    assert (HliveM : self ∉ aborted sM) by exact Hlive.
    rewrite (bool_decide_eq_false_2 _ HliveM).
    set (s2 := callSetter (storeSetter c) _ sM).
    destruct (IH (S i) s2 Hi' Hlook' Hnodup Hlive)
      as (s' & tr & Hrun & Hfetch & Hmerge & Hentry).
    rewrite Hrun. eexists s', _. split; [reflexivity|]. cbn. split; [|split].
    + intros g Hg. right. apply in_or_app. right. right. now apply Hfetch.
    + right. apply in_or_app. right. right. exact Hmerge.
    + exact Hentry.
Qed.

(** Up to the loop: when the list request resolves and the page is not torn
    down during the first two requests, the loop starts with the abort
    closure of this invocation installed and not yet called. *)
Lemma refresh_reaches_loop (w : World) (self : nat) (s : Page)
    (data : option ListResponse) :
  refreshingAll s = false ->
  connectionStatus s = "connected" ->
  list_ w = Resolved data ->
  unmountDuring w <> Some AtConfigYaml ->
  unmountDuring w <> Some AtList ->
  exists sL : Page,
    refreshAllAbortRef sL = Some self /\
    (self ∉ aborted sL) /\
    run w (refreshAllQuotas self) s =
    andFinally
      (orElse
         (prepend [EvFetchConfigYaml; EvList]
            (run w (quotaLoop self 0 configs (filesOrEmpty data)) sL))
         (fun err s3 => (Resolved tt, setError (fun _ => refreshFailed err) s3, [])))
      (fun s4 =>
         if bool_decide (self ∈ aborted s4) then (Resolved tt, s4, [])
         else (Resolved tt, setAbortRef None (setRefreshingAll false s4), [])).
Proof.
  intros Hr Hc Hlist HnC HnL.
  assert (Hd : disableControls s = false).
  { unfold disableControls. rewrite Hc. reflexivity. }
  rewrite (run_refreshAllQuotas w self s Hr Hd), run_loadConfig. cbn [fst snd].
  rewrite (whileSuspended_elsewhere _ _ _ HnC).
  set (s0 := installAbort self (setError (fun _ => "") (setRefreshingAll true s))).
  set (sC := match fetchConfigYaml w with Resolved _ => _ | Rejected _ => _ end).
  assert (HrefC : refreshAllAbortRef sC = Some self).
  { subst sC. destruct (fetchConfigYaml w); reflexivity. }
  assert (HliveC : self ∉ aborted sC).
  { assert (E : aborted sC = aborted s ∖ {[self]}).
    { subst sC. destruct (fetchConfigYaml w); reflexivity. }
    rewrite E. intros Hin. apply elem_of_difference in Hin.
    destruct Hin as [_ Hn]. apply Hn. now apply elem_of_singleton. }
  cbv zeta. rewrite (whileSuspended_elsewhere _ _ _ HnL).
  rewrite (bool_decide_eq_false_2 _ HliveC), Hlist.
  exists (setFiles (filesOrEmpty data) sC).
  split; [exact HrefC|]. split; [exact HliveC|].
  rewrite prepend_prepend. reflexivity.
Qed.

(** C1, as the code has it. When the page is torn down while the fetches of
    provider [N] are in flight (the only moment between their start and the
    next turn of the loop at which anything else can run), the run returns;
    the fetches of provider [N] were all issued; their results are not
    merged: every file the provider selects still has the loading state
    written before the fetches; and no provider after [N] is attempted: the
    trace holds no loading mark, no fetch and no merge of a later one. *)
Theorem C1_unmount_during_fetch (w : World) (self : nat) (s : Page)
    (data : option ListResponse) (N : nat) (config : QuotaConfig Data QS) :
  refreshingAll s = false ->
  connectionStatus s = "connected" ->
  list_ w = Resolved data ->
  configs !! N = Some config ->
  List.filter (filterFn config) (filesOrEmpty data) <> [] ->
  unmountDuring w = Some (AtQuotas N) ->
  exists (s' : Page) (tr : list Event),
    run w (refreshAllQuotas self) s = (Resolved tt, s', tr) /\
    (forall f : AuthFileItem,
        In f (List.filter (filterFn config) (filesOrEmpty data)) ->
        In (EvFetchQuota N f) tr) /\
    ~ In (EvMerge N) tr /\
    (forall f : AuthFileItem,
        In f (List.filter (filterFn config) (filesOrEmpty data)) ->
        quotaOf s' (storeSetter config) !! name f = Some (buildLoadingState config)) /\
    (forall (e : Event) (j : nat), In e tr -> providerOf e = Some j -> (j <= N)%nat).
Proof.
  intros Hr Hc Hlist Hlook Hsome Hunmount.
  destruct (refresh_reaches_loop w self s data Hr Hc Hlist) as (sL & Href & Hlive & Hrun);
    [rewrite Hunmount; discriminate | rewrite Hunmount; discriminate |].
  destruct (quotaLoop_unmounted w self (filesOrEmpty data) N config Hunmount Hsome
              configs 0%nat sL)
    as (s' & tr & Hloop & Hab & Hent & Hfetch & Hmerge & Hbound);
    [lia | now rewrite Nat.sub_0_r | exact Href | exact Hlive |].
  rewrite Hrun, Hloop. cbn. rewrite (bool_decide_eq_true_2 _ Hab). cbn.
  exists s', (EvFetchConfigYaml :: EvList :: tr ++ []).
  split; [reflexivity|]. rewrite app_nil_r.
  split; [intros f Hf; right; right; now apply Hfetch|].
  split; [intros [H|[H|H]]; [discriminate | discriminate | contradiction]|].
  split; [exact Hent|].
  intros e j [<-|[<-|H]] Hj; try discriminate.
  specialize (Hbound e j H Hj). lia.
Qed.

(** C2, as the code has it. Take a run of [refreshAllQuotas] that gets past
    its guard, whose list request resolves, in which the page is not torn
    down before the results of provider [N] are in, and in which the four
    providers keep their states in four different maps. Whatever fetches of
    the provider fail, the run returns, every file the provider selects had
    its fetch issued and the results were merged. The entry of a selected
    file [f] (files being told apart by their names) is decided by the way
    its own fetch settled: the success state of the data when it resolved;
    when it rejected, the error state built from the status code of the
    rejection and from a message, which is the message of the rejection when
    the rejection is an [Error] whose message is not empty, and the
    translated "common.unknown_error" when the rejection is an [Error] with
    an empty message or is not an [Error] at all, whatever message it
    carries. An [Error] with message "timeout" and status 503 is recorded
    with message "timeout" and status 503. *)
Theorem C2_failures_caught_per_file (w : World) (self : nat) (s : Page)
    (data : option ListResponse) (N : nat) (config : QuotaConfig Data QS)
    (f : AuthFileItem) :
  refreshingAll s = false ->
  connectionStatus s = "connected" ->
  list_ w = Resolved data ->
  (forall p : AwaitPoint,
      unmountDuring w = Some p -> exists k : nat, p = AtQuotas k /\ (N < k)%nat) ->
  NoDup (map storeSetter configs) ->
  configs !! N = Some config ->
  In f (List.filter (filterFn config) (filesOrEmpty data)) ->
  (forall g : AuthFileItem,
      In g (List.filter (filterFn config) (filesOrEmpty data)) ->
      name g = name f -> g = f) ->
  exists (s' : Page) (tr : list Event),
    run w (refreshAllQuotas self) s = (Resolved tt, s', tr) /\
    (forall g : AuthFileItem,
        In g (List.filter (filterFn config) (filesOrEmpty data)) ->
        In (EvFetchQuota N g) tr) /\
    In (EvMerge N) tr /\
    (forall d : Data,
        fetchQuota w N f = Resolved d ->
        quotaOf s' (storeSetter config) !! name f = Some (buildSuccessState config d)) /\
    (forall err : Thrown,
        fetchQuota w N f = Rejected err ->
        isError err = true ->
        message err <> "" ->
        quotaOf s' (storeSetter config) !! name f
        = Some (buildErrorState config (message err) (status err))) /\
    (forall err : Thrown,
        fetchQuota w N f = Rejected err ->
        isError err = true ->
        message err = "" ->
        quotaOf s' (storeSetter config) !! name f
        = Some (buildErrorState config (t "common.unknown_error") (status err))) /\
    (forall err : Thrown,
        fetchQuota w N f = Rejected err ->
        isError err = false ->
        quotaOf s' (storeSetter config) !! name f
        = Some (buildErrorState config (t "common.unknown_error") (status err))) /\
    (fetchQuota w N f
     = Rejected {| isError := true; message := "timeout"; status := Some 503 |} ->
     quotaOf s' (storeSetter config) !! name f
     = Some (buildErrorState config "timeout" (Some 503))).
Proof.
  intros Hr Hc Hlist Hlate Hnodup Hlook Hf Huniq.
  destruct (refresh_reaches_loop w self s data Hr Hc Hlist) as (sL & Href & Hlive & Hrun).
  { intros E. destruct (Hlate _ E) as (k & Hk & _). discriminate Hk. }
  { intros E. destruct (Hlate _ E) as (k & Hk & _). discriminate Hk. }
  destruct (quotaLoop_settles w self (filesOrEmpty data) N config f Hlate Hf Huniq
              configs 0%nat sL)
    as (s' & tr & Hloop & Hfetch & Hmerge & Hentry);
    [lia | now rewrite Nat.sub_0_r | exact Hnodup | exact Hlive |].
  rewrite Hrun, Hloop. cbn.
  assert (Hstore : forall s4 : Page,
             (if bool_decide (self ∈ aborted s') then s'
              else setAbortRef None (setRefreshingAll false s')) = s4 ->
             quotaOf s4 (storeSetter config) = quotaOf s' (storeSetter config)).
  { intros s4 <-. destruct (bool_decide (self ∈ aborted s')); reflexivity. }
  eexists (if bool_decide (self ∈ aborted s') then s'
           else setAbortRef None (setRefreshingAll false s')),
          (EvFetchConfigYaml :: EvList :: tr ++ []).
  split; [destruct (bool_decide (self ∈ aborted s')); reflexivity|].
  rewrite app_nil_r, (Hstore _ eq_refl), Hentry.
  split; [intros g Hg; right; right; now apply Hfetch|].
  split; [right; right; exact Hmerge|].
  split; [|split; [|split; [|split]]].
  - intros d Hd. now rewrite Hd.
  - intros err He Hi Hm. rewrite He. unfold errorMessageOf, or_else. rewrite Hi.
    destruct (String.eqb_spec (message err) "") as [E|E];
      [contradiction | reflexivity].
  - intros err He Hi Hm. rewrite He. unfold errorMessageOf, or_else.
    rewrite Hi, Hm. reflexivity.
  - intros err He Hi. rewrite He. unfold errorMessageOf, or_else. rewrite Hi.
    destruct (String.eqb_spec (t "common.unknown_error") "") as [E|E];
      [now rewrite E | reflexivity].
  - intros He. rewrite He. reflexivity.
Qed.

End QuotaPageFacts.

(** ** The statements on the sample page *)

Section OnSamples.

Import Js QuotaPage Samples.

Local Abbreviation fetched := (Some {| resp_files := Some listing |}).

(** The page is torn down while the two codex fetches are in flight. *)
Lemma C1_unmount_during_fetch_witness :
  exists (s' : Page QuotaState) (tr : list Event),
    run unmountedAtCodex (Samples.refreshAllQuotas 1) idle = (Resolved tt, s', tr) /\
    (forall f : AuthFileItem,
        In f (List.filter (filterFn CODEX_CONFIG) (filesOrEmpty fetched)) ->
        In (EvFetchQuota 1 f) tr) /\
    ~ In (EvMerge 1) tr /\
    (forall f : AuthFileItem,
        In f (List.filter (filterFn CODEX_CONFIG) (filesOrEmpty fetched)) ->
        quotaOf s' (storeSetter CODEX_CONFIG) !! name f
        = Some (buildLoadingState CODEX_CONFIG)) /\
    (forall (e : Event) (j : nat), In e tr -> providerOf e = Some j -> (j <= 1)%nat).
Proof.
  apply (C1_unmount_during_fetch Z QuotaState Samples.t
           ANTIGRAVITY_CONFIG CODEX_CONFIG GEMINI_CLI_CONFIG CLAUDE_CONFIG
           unmountedAtCodex 1%nat idle fetched 1%nat CODEX_CONFIG).
  - reflexivity.
  - reflexivity.
  - reflexivity.
  - reflexivity.
  - vm_compute. discriminate.
  - reflexivity.
Defined.

(** C1 as the specification words it fails on the sample page: the fetch
    of b.json was issued and resolved with 7, the page was torn down before
    the next turn of the loop, and the entry of b.json is still the loading
    state, not the success state. *)
Lemma C1_results_merged_counterexample :
  unmountDuring unmountedAtCodex = Some (AtQuotas 1) /\
  In (EvFetchQuota 1 b_json)
     (snd (run unmountedAtCodex (Samples.refreshAllQuotas 1) idle)) /\
  fetchQuota unmountedAtCodex 1 b_json = Resolved 7 /\
  quotaOf (snd (fst (run unmountedAtCodex (Samples.refreshAllQuotas 1) idle)))
          (storeSetter CODEX_CONFIG) !! name b_json
  = Some QLoading /\
  quotaOf (snd (fst (run unmountedAtCodex (Samples.refreshAllQuotas 1) idle)))
          (storeSetter CODEX_CONFIG) !! name b_json
  <> Some (buildSuccessState CODEX_CONFIG 7).
Proof.
  vm_compute. repeat split; try tauto; discriminate.
Qed.

(** The fetch of a.json fails with an [Error] of message "timeout" and
    status 503, the one of b.json yields 7: both fetches are issued, and the
    codex map ends with the error entry of a.json, message and status as
    they came, beside the success entry of b.json. *)
Lemma C2_failures_caught_per_file_witness :
  exists (s' : Page QuotaState) (tr : list Event),
    run calm (Samples.refreshAllQuotas 1) idle = (Resolved tt, s', tr) /\
    In (EvFetchQuota 1 a_json) tr /\
    In (EvFetchQuota 1 b_json) tr /\
    In (EvMerge 1) tr /\
    fetchQuota calm 1 a_json = Rejected timeout503 /\
    quotaOf s' "setCodexQuota" !! "a.json" = Some (QError "timeout" (Some 503)) /\
    fetchQuota calm 1 b_json = Resolved 7 /\
    quotaOf s' "setCodexQuota" !! "b.json" = Some (QSuccess 7).
Proof.
  assert (Hnodup : NoDup (map storeSetter
                            (configs Z QuotaState ANTIGRAVITY_CONFIG CODEX_CONFIG
                               GEMINI_CLI_CONFIG CLAUDE_CONFIG))).
  { apply (@bool_decide_unpack _ (NoDup_dec _)). vm_compute. exact I. }
  assert (Hlate : forall p : AwaitPoint,
             unmountDuring calm = Some p -> exists k : nat, p = AtQuotas k /\ (1 < k)%nat).
  { intros p Hp. vm_compute in Hp. discriminate Hp. }
  destruct (C2_failures_caught_per_file Z QuotaState Samples.t
              ANTIGRAVITY_CONFIG CODEX_CONFIG GEMINI_CLI_CONFIG CLAUDE_CONFIG
              calm 1%nat idle fetched 1%nat CODEX_CONFIG a_json
              eq_refl eq_refl eq_refl Hlate Hnodup eq_refl)
    as (sa & tra & Hruna & Hfetcha & Hmergea & _ & Herra & _).
  { vm_compute. left. reflexivity. }
  { intros g Hg Hname. vm_compute in Hg. destruct Hg as [<-|[<-|[]]].
    - reflexivity.
    - vm_compute in Hname. discriminate Hname. }
  destruct (C2_failures_caught_per_file Z QuotaState Samples.t
              ANTIGRAVITY_CONFIG CODEX_CONFIG GEMINI_CLI_CONFIG CLAUDE_CONFIG
              calm 1%nat idle fetched 1%nat CODEX_CONFIG b_json
              eq_refl eq_refl eq_refl Hlate Hnodup eq_refl)
    as (sb & trb & Hrunb & _ & _ & Hokb & _).
  { vm_compute. right. left. reflexivity. }
  { intros g Hg Hname. vm_compute in Hg. destruct Hg as [<-|[<-|[]]].
    - vm_compute in Hname. discriminate Hname.
    - reflexivity. }
  rewrite Hruna in Hrunb. injection Hrunb as <- <-.
  exists sa, tra. split; [exact Hruna|].
  split; [apply Hfetcha; vm_compute; left; reflexivity|].
  split; [apply Hfetcha; vm_compute; right; left; reflexivity|].
  split; [exact Hmergea|].
  split; [reflexivity|].
  split; [exact (Herra timeout503 eq_refl eq_refl ltac:(discriminate))|].
  split; [reflexivity|].
  exact (Hokb 7 eq_refl).
Defined.

(** What that run leaves in the codex map: the failure of a.json with its
    message and status, the success of b.json beside it. *)
Example refresh_calm_entries :
  quotaOf (snd (fst (run calm (Samples.refreshAllQuotas 1) idle)))
          (storeSetter CODEX_CONFIG)
  = {[ "a.json" := QError "timeout" (Some 503); "b.json" := QSuccess 7 ]}.
Proof. vm_compute. reflexivity. Qed.

(** C2 as the specification words it fails three times on the sample
    page. The specification's own example, a rejection with the plain object
    of message "timeout" and status 503, is recorded with the translated
    "common.unknown_error" and status 503: the message of a rejection that is
    not an [Error] is dropped. An [Error] whose message is empty is recorded
    with the translated "common.unknown_error" too, not with its message.
    And when the page is torn down while the codex fetches are in flight,
    the failure of a.json is not recorded at all: its entry is still the
    loading state. *)
Lemma C2_failure_message_counterexample :
  fetchQuota plainFailure 1 a_json = Rejected plainTimeout503 /\
  message plainTimeout503 = "timeout" /\
  status plainTimeout503 = Some 503 /\
  quotaOf (snd (fst (run plainFailure (Samples.refreshAllQuotas 1) idle)))
          (storeSetter CODEX_CONFIG) !! name a_json
  = Some (QError (Samples.t "common.unknown_error") (Some 503)) /\
  quotaOf (snd (fst (run plainFailure (Samples.refreshAllQuotas 1) idle)))
          (storeSetter CODEX_CONFIG) !! name a_json
  <> Some (QError "timeout" (Some 503)) /\
  fetchQuota silentFailure 1 a_json = Rejected emptyMessage /\
  message emptyMessage = "" /\
  quotaOf (snd (fst (run silentFailure (Samples.refreshAllQuotas 1) idle)))
          (storeSetter CODEX_CONFIG) !! name a_json
  = Some (QError (Samples.t "common.unknown_error") None) /\
  quotaOf (snd (fst (run silentFailure (Samples.refreshAllQuotas 1) idle)))
          (storeSetter CODEX_CONFIG) !! name a_json
  <> Some (buildErrorState CODEX_CONFIG (message emptyMessage) (status emptyMessage)) /\
  fetchQuota unmountedAtCodex 1 a_json = Rejected timeout503 /\
  quotaOf (snd (fst (run unmountedAtCodex (Samples.refreshAllQuotas 1) idle)))
          (storeSetter CODEX_CONFIG) !! name a_json
  = Some QLoading.
Proof.
  vm_compute. repeat split; discriminate.
Qed.

(** A second click while a refresh is under way. *)
Lemma C3_refresh_guard_witness :
  run calm (Samples.refreshAllQuotas 2) busy = (Resolved tt, busy, []) /\
  start (Samples.refreshAllQuotas 2) busy = (Finished (Resolved tt), busy).
Proof.
  apply (C3_refresh_guard Z QuotaState Samples.t
           ANTIGRAVITY_CONFIG CODEX_CONFIG GEMINI_CLI_CONFIG CLAUDE_CONFIG
           calm 2%nat busy).
  left. reflexivity.
Defined.

(** The listing fails on a page that shows an earlier list. *)
Lemma C10_loadFiles_keeps_files_on_failure_witness :
  exists s' : Page QuotaState,
    run failing Samples.loadFiles stale = (Resolved tt, s', [EvList]) /\
    files s' = files stale /\
    error s' = errorMessageOf Samples.t "notification.refresh_failed" offline /\
    loading s' = false /\
    connectionStatus s' = connectionStatus stale /\
    refreshingAll s' = refreshingAll stale /\
    refreshAllAbortRef s' = refreshAllAbortRef stale /\
    quotaStore s' = quotaStore stale.
Proof.
  apply (C10_loadFiles_keeps_files_on_failure Z QuotaState Samples.t
           failing stale offline).
  reflexivity.
Defined.

End OnSamples.

(** ** QuotaPage: whole runs, the effects and the rendering *)

Section WholeRuns.

Import Js QuotaPage Lifecycle.

Variable Data : Type.
Variable QS : Type.
Variable t : string -> string.
Variable ANTIGRAVITY_CONFIG : QuotaConfig Data QS.
Variable CODEX_CONFIG : QuotaConfig Data QS.
Variable GEMINI_CLI_CONFIG : QuotaConfig Data QS.
Variable CLAUDE_CONFIG : QuotaConfig Data QS.

Local Abbreviation Task := (Task Data QS).
Local Abbreviation World := (World Data).
Local Abbreviation Page := (Page QS).
Local Abbreviation loadConfig := (loadConfig Data QS t).
Local Abbreviation loadFiles := (loadFiles Data QS t).
Local Abbreviation configs :=
  (configs Data QS ANTIGRAVITY_CONFIG CODEX_CONFIG GEMINI_CLI_CONFIG CLAUDE_CONFIG).
Local Abbreviation quotaLoop := (quotaLoop Data QS t).
Local Abbreviation refreshAllQuotas :=
  (refreshAllQuotas Data QS t ANTIGRAVITY_CONFIG CODEX_CONFIG GEMINI_CLI_CONFIG CLAUDE_CONFIG).
Local Abbreviation refreshFailed := (errorMessageOf t "notification.refresh_failed").
Local Abbreviation handleHeaderRefresh := (handleHeaderRefresh Data QS t).
Local Abbreviation mountEffect := (mountEffect Data QS t).
Local Abbreviation render :=
  (render Data QS t ANTIGRAVITY_CONFIG CODEX_CONFIG GEMINI_CLI_CONFIG CLAUDE_CONFIG).

(** The state in which [refreshAllQuotas] enters its [try]. *)
Local Abbreviation entered self s :=
  (installAbort self (setError (fun _ => "") (setRefreshingAll true s))).

(** The state after the [await loadConfig()] of a run that is not torn
    down meanwhile. *)
Local Abbreviation configured w self s :=
  (match fetchConfigYaml w with
   | Resolved _ => entered self s
   | Rejected err => setError (fun prev => or_else prev (refreshFailed err)) (entered self s)
   end).

(** *** The loop when nothing interrupts it *)

Lemma passPage_frame (w : World) (i : nat) (config : QuotaConfig Data QS)
    (filesList : list AuthFileItem) (s : Page) :
  connectionStatus (passPage t w i config filesList s) = connectionStatus s /\
  files (passPage t w i config filesList s) = files s /\
  loading (passPage t w i config filesList s) = loading s /\
  error (passPage t w i config filesList s) = error s /\
  refreshingAll (passPage t w i config filesList s) = refreshingAll s /\
  refreshAllAbortRef (passPage t w i config filesList s) = refreshAllAbortRef s /\
  aborted (passPage t w i config filesList s) = aborted s.
Proof.
  unfold passPage.
  destruct (Nat.eqb (length (List.filter (filterFn config) filesList)) 0); cbn; tauto.
Qed.

Lemma loopPage_frame (w : World) (filesList : list AuthFileItem)
    (cfgs : list (QuotaConfig Data QS)) (i : nat) (s : Page) :
  connectionStatus (loopPage t w i cfgs filesList s) = connectionStatus s /\
  files (loopPage t w i cfgs filesList s) = files s /\
  loading (loopPage t w i cfgs filesList s) = loading s /\
  error (loopPage t w i cfgs filesList s) = error s /\
  refreshingAll (loopPage t w i cfgs filesList s) = refreshingAll s /\
  refreshAllAbortRef (loopPage t w i cfgs filesList s) = refreshAllAbortRef s /\
  aborted (loopPage t w i cfgs filesList s) = aborted s.
Proof.
  revert i s. induction cfgs as [|config rest IH]; intros i s; cbn [loopPage]; [tauto|].
  destruct (IH (S i) (passPage t w i config filesList s)) as (E1 & E2 & E3 & E4 & E5 & E6 & E7).
  destruct (passPage_frame w i config filesList s) as (F1 & F2 & F3 & F4 & F5 & F6 & F7).
  rewrite E1, E2, E3, E4, E5, E6, E7. tauto.
Qed.

(** When the page is not torn down during a quota fetch, the loop is the
    succession of the turns of its providers. *)
Lemma quotaLoop_calm (w : World) (self : nat) (filesList : list AuthFileItem) :
  (forall i : nat, unmountDuring w <> Some (AtQuotas i)) ->
  forall (cfgs : list (QuotaConfig Data QS)) (i : nat) (s : Page),
    self ∉ aborted s ->
    run w (quotaLoop self i cfgs filesList) s
    = (Resolved tt, loopPage t w i cfgs filesList s, loopTrace i cfgs filesList).
Proof.
  intros Hcalm cfgs.
  induction cfgs as [|config rest IH]; intros i s Hlive; [reflexivity|].
  rewrite run_quotaLoop_cons, (bool_decide_eq_false_2 _ Hlive). cbv zeta.
  cbn [loopPage loopTrace]. unfold passPage, passTrace.
  destruct (Nat.eqb (length (List.filter (filterFn config) filesList)) 0).
  { rewrite (IH (S i) s Hlive). reflexivity. }
  rewrite (whileSuspended_elsewhere _ _ _ _ _ (Hcalm i)).
  set (sM := callSetter (storeSetter config) (markLoading _ _) s).
  assert (HliveM : self ∉ aborted sM) by exact Hlive.
  rewrite (bool_decide_eq_false_2 _ HliveM).
  set (s2 := callSetter (storeSetter config) _ sM).
  rewrite (IH (S i) s2 Hlive). unfold prepend. cbn [fst snd].
  f_equal. cbn [app]. f_equal. rewrite <- app_assoc. reflexivity.
Qed.

(** *** Whole runs *)

Lemma entered_live (self : nat) (s : Page) : self ∉ aborted (entered self s).
Proof.
  cbn. intros Hin. apply elem_of_difference in Hin.
  destruct Hin as [_ Hn]. apply Hn. now apply elem_of_singleton.
Qed.

Lemma configured_live (w : World) (self : nat) (s : Page) :
  self ∉ aborted (configured w self s).
Proof. destruct (fetchConfigYaml w); apply entered_live. Qed.

Lemma guard_open (s : Page) :
  refreshingAll s = false -> connectionStatus s = "connected" ->
  disableControls s = false.
Proof. intros _ Hc. unfold disableControls. now rewrite Hc. Qed.

(** A run that gets past the guard and that no tear-down interrupts. *)
Lemma refresh_calm (w : World) (self : nat) (s : Page) :
  refreshingAll s = false ->
  connectionStatus s = "connected" ->
  unmountDuring w = None ->
  run w (refreshAllQuotas self) s =
  match list_ w with
  | Rejected err =>
      (Resolved tt,
       setAbortRef None
         (setRefreshingAll false
            (setError (fun _ => refreshFailed err) (configured w self s))),
       [EvFetchConfigYaml; EvList])
  | Resolved data =>
      (Resolved tt,
       setAbortRef None
         (setRefreshingAll false
            (loopPage t w 0 configs (filesOrEmpty data)
               (setFiles (filesOrEmpty data) (configured w self s)))),
       EvFetchConfigYaml :: EvList :: loopTrace 0 configs (filesOrEmpty data))
  end.
Proof.
  intros Hr Hc Hcalm.
  rewrite (run_refreshAllQuotas Data QS t ANTIGRAVITY_CONFIG CODEX_CONFIG
             GEMINI_CLI_CONFIG CLAUDE_CONFIG w self s Hr (guard_open s Hr Hc)).
  rewrite run_loadConfig. cbn [fst snd].
  rewrite !whileSuspended_elsewhere by (rewrite Hcalm; discriminate).
  cbv zeta.
  rewrite ?whileSuspended_elsewhere by (rewrite Hcalm; discriminate).
  pose proof (configured_live w self s) as Hlive.
  rewrite (bool_decide_eq_false_2 _ Hlive).
  destruct (list_ w) as [data|err].
  - rewrite (quotaLoop_calm w self (filesOrEmpty data)) by
      (first [intros i; rewrite Hcalm; discriminate | exact Hlive]).
    cbn.
    destruct (loopPage_frame w (filesOrEmpty data) configs 0
                (setFiles (filesOrEmpty data) (configured w self s)))
      as (_ & _ & _ & _ & _ & _ & Hab).
    cbn [QuotaPage.configs] in Hab |- *.
    assert (Hlive' : self ∉ aborted
                       (loopPage t w 0 configs (filesOrEmpty data)
                          (setFiles (filesOrEmpty data) (configured w self s)))).
    { cbn [QuotaPage.configs]. rewrite Hab. exact Hlive. }
    cbn [QuotaPage.configs] in Hlive'.
    rewrite (bool_decide_eq_false_2 _ Hlive'). cbn. rewrite app_nil_r. reflexivity.
  - cbn.
    assert (Hlive' : self ∉ aborted (setError (fun _ => refreshFailed err)
                                       (configured w self s))) by exact Hlive.
    rewrite (bool_decide_eq_false_2 _ Hlive'). reflexivity.
Qed.

(** Every run, whatever happens, has one of four shapes: stopped by the
    guard, stopped after the configuration request, stopped after the list
    request, or gone through the loop. *)
Lemma refresh_shape (w : World) (self : nat) (s : Page) :
  exists (s' : Page) (tr : list Event),
    run w (refreshAllQuotas self) s = (Resolved tt, s', tr) /\
    (tr = [] \/ tr = [EvFetchConfigYaml] \/ tr = [EvFetchConfigYaml; EvList] \/
     exists (data : option ListResponse) (sL : Page),
       list_ w = Resolved data /\
       tr = EvFetchConfigYaml :: EvList ::
            snd (run w (quotaLoop self 0 configs (filesOrEmpty data)) sL)).
Proof.
  destruct (refreshingAll s || disableControls s) eqn:Hguard.
  { destruct (refresh_guarded Data QS t ANTIGRAVITY_CONFIG CODEX_CONFIG GEMINI_CLI_CONFIG
                CLAUDE_CONFIG w self s Hguard) as [Hrun _].
    exists s, []. split; [exact Hrun | now left]. }
  apply orb_false_elim in Hguard. destruct Hguard as [Hr Hd].
  rewrite (run_refreshAllQuotas Data QS t ANTIGRAVITY_CONFIG CODEX_CONFIG
             GEMINI_CLI_CONFIG CLAUDE_CONFIG w self s Hr Hd), run_loadConfig.
  cbn [fst snd]. cbv zeta.
  set (sC := match fetchConfigYaml w with Resolved _ => _ | Rejected _ => _ end).
  set (sL := whileSuspended w AtList sC).
  destruct (bool_decide (self ∈ aborted sC)) eqn:HC.
  { cbn. rewrite HC. eexists _, _. split; [reflexivity|]. right. left. reflexivity. }
  destruct (list_ w) as [data|err] eqn:Hlist.
  2:{ cbn. destruct (bool_decide (self ∈ aborted sL));
        eexists _, _; (split; [reflexivity|]); right; right; left; reflexivity. }
  destruct (bool_decide (self ∈ aborted sL)) eqn:HL.
  { cbn. rewrite HL. eexists _, _. split; [reflexivity|].
    right. right. left. reflexivity. }
  destruct (quotaLoop_runs _ _ t w self (filesOrEmpty data) configs 0
              (setFiles (filesOrEmpty data) sL))
    as (s' & tr & Hrun & _).
  rewrite Hrun. cbn -[QuotaPage.quotaLoop QuotaPage.run].
  destruct (bool_decide (self ∈ aborted s'));
    eexists _, _; (split; [reflexivity|]); right; right; right;
    exists data, (setFiles (filesOrEmpty data) sL);
    (split; [reflexivity|]); rewrite Hrun; cbn; now rewrite app_nil_r.
Qed.

(** X1. [refreshAllQuotas] never throws: in every world and from every
    state, cancelled or not, whatever requests fail, its promise
    resolves. *)
Theorem X1_refresh_never_throws (w : World) (self : nat) (s : Page) :
  fst (fst (run w (refreshAllQuotas self) s)) = Resolved tt.
Proof.
  destruct (refresh_shape w self s) as (s' & tr & Hrun & _). now rewrite Hrun.
Qed.

(** After a refresh that nothing interrupts the guard is open again. *)
Lemma refresh_calm_reopens (w : World) (self : nat) (s : Page) :
  refreshingAll s = false ->
  connectionStatus s = "connected" ->
  unmountDuring w = None ->
  refreshingAll (snd (fst (run w (refreshAllQuotas self) s))) = false /\
  connectionStatus (snd (fst (run w (refreshAllQuotas self) s))) = "connected".
Proof.
  intros Hr Hc Hcalm. rewrite (refresh_calm w self s Hr Hc Hcalm).
  destruct (list_ w) as [data|err]; cbn [fst snd].
  - destruct (loopPage_frame w (filesOrEmpty data) configs 0
                (setFiles (filesOrEmpty data) (configured w self s)))
      as (E1 & _).
    cbn -[loopPage] in E1 |- *. rewrite E1.
    destruct (fetchConfigYaml w); cbn; rewrite Hc; tauto.
  - destruct (fetchConfigYaml w); cbn; rewrite Hc; tauto.
Qed.

(** X2. A refresh that gets past the guard and during which the page is
    not torn down always ends with [refreshingAll] cleared and the abort
    reference emptied, whether the requests succeeded or not; a tear-down
    of the page after it changes nothing; and it never touches [loading]
    nor the connection status. *)
Theorem X2_refresh_finishes_clean (w : World) (self : nat) (s : Page) :
  refreshingAll s = false ->
  connectionStatus s = "connected" ->
  unmountDuring w = None ->
  refreshingAll (snd (fst (run w (refreshAllQuotas self) s))) = false /\
  refreshAllAbortRef (snd (fst (run w (refreshAllQuotas self) s))) = None /\
  teardown (snd (fst (run w (refreshAllQuotas self) s)))
  = snd (fst (run w (refreshAllQuotas self) s)) /\
  loading (snd (fst (run w (refreshAllQuotas self) s))) = loading s /\
  connectionStatus (snd (fst (run w (refreshAllQuotas self) s))) = connectionStatus s.
Proof.
  intros Hr Hc Hcalm. rewrite (refresh_calm w self s Hr Hc Hcalm).
  destruct (list_ w) as [data|err]; cbn [fst snd].
  - destruct (loopPage_frame w (filesOrEmpty data) configs 0
                (setFiles (filesOrEmpty data) (configured w self s)))
      as (E1 & _ & E3 & _).
    cbn -[loopPage] in E1, E3 |- *. rewrite E1, E3.
    destruct (fetchConfigYaml w); cbn; tauto.
  - destruct (fetchConfigYaml w); cbn; tauto.
Qed.

(** X3. When the list request of a refresh fails (and the page is not torn
    down), nothing but the two requests was issued: no provider is touched;
    [error] is the message of the failure, [files] and every quota map are
    what they were, and [refreshingAll] is cleared. *)
Theorem X3_refresh_list_failure (w : World) (self : nat) (s : Page) (err : Thrown) :
  refreshingAll s = false ->
  connectionStatus s = "connected" ->
  unmountDuring w = None ->
  list_ w = Rejected err ->
  exists s' : Page,
    run w (refreshAllQuotas self) s = (Resolved tt, s', [EvFetchConfigYaml; EvList]) /\
    error s' = refreshFailed err /\
    files s' = files s /\
    quotaStore s' = quotaStore s /\
    refreshingAll s' = false.
Proof.
  intros Hr Hc Hcalm Hlist. rewrite (refresh_calm w self s Hr Hc Hcalm), Hlist.
  eexists. split; [reflexivity|].
  destruct (fetchConfigYaml w); cbn; tauto.
Qed.

(** X4. A failure of the configuration request does not stop a refresh.
    When the list request resolves (and the page is not torn down), [files]
    becomes the fetched list and [error] ends as the message of the
    configuration failure, or empty when the configuration request
    resolved: the error shown before the refresh is gone either way. *)
Theorem X4_refresh_goes_on_after_config_failure (w : World) (self : nat) (s : Page)
    (data : option ListResponse) :
  refreshingAll s = false ->
  connectionStatus s = "connected" ->
  unmountDuring w = None ->
  list_ w = Resolved data ->
  files (snd (fst (run w (refreshAllQuotas self) s))) = filesOrEmpty data /\
  error (snd (fst (run w (refreshAllQuotas self) s)))
  = match fetchConfigYaml w with
    | Resolved _ => ""
    | Rejected err => refreshFailed err
    end.
Proof.
  intros Hr Hc Hcalm Hlist. rewrite (refresh_calm w self s Hr Hc Hcalm), Hlist.
  cbn [fst snd].
  destruct (loopPage_frame w (filesOrEmpty data) configs 0
              (setFiles (filesOrEmpty data) (configured w self s)))
    as (_ & E2 & _ & E4 & _).
  cbn -[loopPage loopTrace] in E2, E4 |- *. rewrite E2, E4.
  destruct (fetchConfigYaml w); cbn; repeat split; auto.
Qed.

(** X5. When the page is torn down while the configuration request of a
    refresh is pending, the refresh stops right after it: the list is never
    requested, [files] and the quota maps are untouched, and the [finally]
    leaves [refreshingAll] set and the abort closure in place. *)
Theorem X5_unmount_during_config (w : World) (self : nat) (s : Page) :
  refreshingAll s = false ->
  connectionStatus s = "connected" ->
  unmountDuring w = Some AtConfigYaml ->
  exists s' : Page,
    run w (refreshAllQuotas self) s = (Resolved tt, s', [EvFetchConfigYaml]) /\
    files s' = files s /\
    quotaStore s' = quotaStore s /\
    refreshingAll s' = true /\
    refreshAllAbortRef s' = Some self.
Proof.
  intros Hr Hc Hun.
  rewrite (run_refreshAllQuotas Data QS t ANTIGRAVITY_CONFIG CODEX_CONFIG
             GEMINI_CLI_CONFIG CLAUDE_CONFIG w self s Hr (guard_open s Hr Hc)).
  rewrite run_loadConfig. cbn [fst snd].
  rewrite (whileSuspended_here _ _ _ _ _ Hun). cbv zeta.
  set (sC := match fetchConfigYaml w with Resolved _ => _ | Rejected _ => _ end).
  assert (Hab : self ∈ aborted sC).
  { subst sC. destruct (fetchConfigYaml w); cbn; set_solver. }
  rewrite (bool_decide_eq_true_2 _ Hab). cbn. rewrite (bool_decide_eq_true_2 _ Hab).
  exists sC. split; [reflexivity|].
  subst sC. destruct (fetchConfigYaml w); cbn; tauto.
Qed.

(** X6. When the page is torn down while the list request of a refresh is
    pending, no provider is touched: [files] and the quota maps are what
    they were, and [refreshingAll] stays set with the abort closure in
    place. The [catch] still runs: if the list request rejected, [error] is
    the message of that failure. *)
Theorem X6_unmount_during_list (w : World) (self : nat) (s : Page) :
  refreshingAll s = false ->
  connectionStatus s = "connected" ->
  unmountDuring w = Some AtList ->
  exists s' : Page,
    run w (refreshAllQuotas self) s = (Resolved tt, s', [EvFetchConfigYaml; EvList]) /\
    files s' = files s /\
    quotaStore s' = quotaStore s /\
    refreshingAll s' = true /\
    refreshAllAbortRef s' = Some self /\
    (forall err : Thrown, list_ w = Rejected err -> error s' = refreshFailed err) /\
    (forall data : option ListResponse,
        list_ w = Resolved data ->
        error s' = match fetchConfigYaml w with
                   | Resolved _ => ""
                   | Rejected e => refreshFailed e
                   end).
Proof.
  intros Hr Hc Hun.
  rewrite (run_refreshAllQuotas Data QS t ANTIGRAVITY_CONFIG CODEX_CONFIG
             GEMINI_CLI_CONFIG CLAUDE_CONFIG w self s Hr (guard_open s Hr Hc)).
  rewrite run_loadConfig. cbn [fst snd].
  rewrite whileSuspended_elsewhere by (rewrite Hun; discriminate).
  cbv zeta. rewrite (whileSuspended_here _ _ _ _ _ Hun).
  pose proof (configured_live w self s) as Hlive.
  rewrite (bool_decide_eq_false_2 _ Hlive).
  assert (Hab : self ∈ aborted (teardown (configured w self s))).
  { destruct (fetchConfigYaml w); cbn; set_solver. }
  destruct (list_ w) as [data|err].
  - rewrite (bool_decide_eq_true_2 _ Hab). cbn. rewrite (bool_decide_eq_true_2 _ Hab).
    eexists. split; [reflexivity|].
    destruct (fetchConfigYaml w); cbn; repeat split; auto; discriminate.
  - cbn.
    assert (Hab' : self ∈ aborted (setError (fun _ => refreshFailed err)
                                     (teardown (configured w self s)))).
    { destruct (fetchConfigYaml w); cbn; set_solver. }
    rewrite (bool_decide_eq_true_2 _ Hab').
    eexists. split; [reflexivity|].
    destruct (fetchConfigYaml w); cbn; repeat split; auto; try discriminate;
      intros err' [= <-]; reflexivity.
Qed.

(** X7. A refresh that nothing interrupts issues, after the configuration
    and the list requests, the turns of the four providers strictly in
    their order: for each provider with a matching file a loading mark, one
    quota fetch per matching file in the order of the fetched list, and a
    merge, and nothing for a provider without a matching file. *)
Theorem X7_refresh_trace (w : World) (self : nat) (s : Page)
    (data : option ListResponse) :
  refreshingAll s = false ->
  connectionStatus s = "connected" ->
  unmountDuring w = None ->
  list_ w = Resolved data ->
  snd (run w (refreshAllQuotas self) s)
  = (EvFetchConfigYaml :: EvList ::
     passTrace 0 ANTIGRAVITY_CONFIG (filesOrEmpty data) ++
     passTrace 1 CODEX_CONFIG (filesOrEmpty data) ++
     passTrace 2 GEMINI_CLI_CONFIG (filesOrEmpty data) ++
     passTrace 3 CLAUDE_CONFIG (filesOrEmpty data))%list.
Proof.
  intros Hr Hc Hcalm Hlist. rewrite (refresh_calm w self s Hr Hc Hcalm), Hlist.
  cbn [snd QuotaPage.configs loopTrace]. now rewrite app_nil_r.
Qed.

(** *** The map of one provider *)

Lemma quotaOf_passPage_other (w : World) (i : nat) (config : QuotaConfig Data QS)
    (filesList : list AuthFileItem) (s : Page) (setter : string) :
  storeSetter config <> setter ->
  quotaOf (passPage t w i config filesList s) setter = quotaOf s setter.
Proof.
  intros Hne. unfold passPage.
  destruct (Nat.eqb (length (List.filter (filterFn config) filesList)) 0); [reflexivity|].
  rewrite !quotaOf_callSetter.
  destruct (decide (storeSetter config = setter)); [contradiction | reflexivity].
Qed.

Lemma quotaOf_passPage_own (w : World) (i : nat) (config : QuotaConfig Data QS)
    (filesList : list AuthFileItem) (s : Page) :
  quotaOf (passPage t w i config filesList s) (storeSetter config)
  = if Nat.eqb (length (List.filter (filterFn config) filesList)) 0
    then quotaOf s (storeSetter config)
    else
      mergeResults t config
        (map (fun f => resultOf t f (fetchQuota w i f))
           (List.filter (filterFn config) filesList))
        (markLoading config (List.filter (filterFn config) filesList)
           (quotaOf s (storeSetter config))).
Proof.
  unfold passPage.
  destruct (Nat.eqb (length (List.filter (filterFn config) filesList)) 0); [reflexivity|].
  rewrite !quotaOf_callSetter.
  destruct (decide (storeSetter config = storeSetter config)); [reflexivity | contradiction].
Qed.

Lemma quotaOf_loopPage_other (w : World) (filesList : list AuthFileItem)
    (cfgs : list (QuotaConfig Data QS)) (i : nat) (s : Page) (setter : string) :
  ~ In setter (map storeSetter cfgs) ->
  quotaOf (loopPage t w i cfgs filesList s) setter = quotaOf s setter.
Proof.
  revert i s. induction cfgs as [|c rest IH]; intros i s Hout; [reflexivity|].
  cbn [loopPage]. cbn [map In] in Hout.
  rewrite IH by tauto. apply quotaOf_passPage_other. tauto.
Qed.

Lemma quotaOf_loopPage_own (w : World) (filesList : list AuthFileItem)
    (cfgs : list (QuotaConfig Data QS)) :
  NoDup (map storeSetter cfgs) ->
  forall (i j : nat) (config : QuotaConfig Data QS) (s : Page),
    cfgs !! j = Some config ->
    quotaOf (loopPage t w i cfgs filesList s) (storeSetter config)
    = quotaOf (passPage t w (i + j) config filesList s) (storeSetter config).
Proof.
  induction cfgs as [|c rest IH]; intros Hnd i j config s Hlook; [discriminate|].
  cbn [map] in Hnd. apply NoDup_cons in Hnd. destruct Hnd as [Hfresh Hnd].
  cbn [loopPage]. destruct j as [|j].
  - cbn in Hlook. injection Hlook as ->. rewrite Nat.add_0_r.
    apply quotaOf_loopPage_other. intros Hin. apply Hfresh.
    now apply list_elem_of_In.
  - cbn in Hlook. rewrite (IH Hnd (S i) j config _ Hlook).
    replace (S i + j)%nat with (i + S j)%nat by lia.
    assert (Hne : storeSetter c <> storeSetter config).
    { intros E. apply Hfresh. rewrite E. apply list_elem_of_In. apply in_map.
      apply list_elem_of_In. eapply list_elem_of_lookup_2. exact Hlook. }
    rewrite !quotaOf_passPage_own, (quotaOf_passPage_other _ _ _ _ _ _ Hne).
    reflexivity.
Qed.

(** X8. After a refresh that nothing interrupts, and with one state map
    per provider, the map of a provider is the map it had before the
    refresh when no file matches, and otherwise that map with its matching
    files first marked loading and then given their results: nothing that
    happens to the files of the other providers, success or failure, shows
    in it. *)
Theorem X8_provider_map_after_refresh (w : World) (self : nat) (s : Page)
    (data : option ListResponse) (N : nat) (config : QuotaConfig Data QS) :
  refreshingAll s = false ->
  connectionStatus s = "connected" ->
  unmountDuring w = None ->
  list_ w = Resolved data ->
  NoDup (map storeSetter configs) ->
  configs !! N = Some config ->
  quotaOf (snd (fst (run w (refreshAllQuotas self) s))) (storeSetter config)
  = if Nat.eqb (length (List.filter (filterFn config) (filesOrEmpty data))) 0
    then quotaOf s (storeSetter config)
    else
      mergeResults t config
        (map (fun f => resultOf t f (fetchQuota w N f))
           (List.filter (filterFn config) (filesOrEmpty data)))
        (markLoading config (List.filter (filterFn config) (filesOrEmpty data))
           (quotaOf s (storeSetter config))).
Proof.
  intros Hr Hc Hcalm Hlist Hnd Hlook.
  rewrite (refresh_calm w self s Hr Hc Hcalm), Hlist. cbn [fst snd].
  transitivity
    (quotaOf (loopPage t w 0 configs (filesOrEmpty data)
                (setFiles (filesOrEmpty data) (configured w self s)))
             (storeSetter config)); [reflexivity|].
  rewrite (quotaOf_loopPage_own w (filesOrEmpty data) configs Hnd 0 N config _ Hlook).
  rewrite quotaOf_passPage_own. cbn [Nat.add].
  replace (quotaOf (setFiles (filesOrEmpty data) (configured w self s)) (storeSetter config))
    with (quotaOf s (storeSetter config)); [reflexivity|].
  destruct (fetchConfigYaml w); reflexivity.
Qed.

(** *** What a run never requests *)

Lemma quotaLoop_events (w : World) (self : nat) (filesList : list AuthFileItem)
    (cfgs : list (QuotaConfig Data QS)) (i : nat) (s : Page) (e : Event) :
  In e (snd (run w (quotaLoop self i cfgs filesList) s)) ->
  exists (j : nat) (config : QuotaConfig Data QS),
    cfgs !! j = Some config /\
    providerOf e = Some (i + j)%nat /\
    List.filter (filterFn config) filesList <> [] /\
    (forall f : AuthFileItem,
        e = EvFetchQuota (i + j) f -> In f (List.filter (filterFn config) filesList)).
Proof.
  revert i s. induction cfgs as [|c rest IH]; intros i s He; [destruct He|].
  rewrite run_quotaLoop_cons in He.
  destruct (bool_decide (self ∈ aborted s)); [destruct He|].
  cbv zeta in He.
  assert (Hrest : forall s1 : Page,
             In e (snd (run w (quotaLoop self (S i) rest filesList) s1)) ->
             exists (j : nat) (config : QuotaConfig Data QS),
               (c :: rest) !! j = Some config /\
               providerOf e = Some (i + j)%nat /\
               List.filter (filterFn config) filesList <> [] /\
               (forall f : AuthFileItem,
                   e = EvFetchQuota (i + j) f ->
                   In f (List.filter (filterFn config) filesList))).
  { intros s1 H1. destruct (IH (S i) s1 H1) as (j & config & Hl & Hp & Hne & Hf).
    exists (S j), config. replace (i + S j)%nat with (S i + j)%nat by lia.
    split; [exact Hl | tauto]. }
  destruct (Nat.eqb (length (List.filter (filterFn c) filesList)) 0) eqn:Hlen;
    [now apply (Hrest s)|].
  assert (Hne : List.filter (filterFn c) filesList <> []).
  { intros E. rewrite E in Hlen. discriminate. }
  assert (Hhead : e = EvSetLoading i \/ e = EvMerge i \/
                  (exists f, e = EvFetchQuota i f /\
                             In f (List.filter (filterFn c) filesList)) ->
                  exists (j : nat) (config : QuotaConfig Data QS),
                    (c :: rest) !! j = Some config /\
                    providerOf e = Some (i + j)%nat /\
                    List.filter (filterFn config) filesList <> [] /\
                    (forall f : AuthFileItem,
                        e = EvFetchQuota (i + j) f ->
                        In f (List.filter (filterFn config) filesList))).
  { intros Hcase. exists 0%nat, c. rewrite Nat.add_0_r. split; [reflexivity|].
    destruct Hcase as [->|[->|(f & -> & Hf)]]; (split; [reflexivity|]);
      (split; [exact Hne|]); intros f' E; try discriminate.
    injection E as <-. exact Hf. }
  unfold prepend in He. cbn [fst snd] in He.
  destruct He as [<-|He]; [apply Hhead; now left|].
  apply in_app_or in He. destruct He as [He|He].
  { apply in_map_iff in He. destruct He as (f & <- & Hf).
    apply Hhead. right. right. now exists f. }
  match type of He with
  | context [bool_decide ?P] => destruct (bool_decide P)
  end; [destruct He|].
  cbn [fst snd app] in He. destruct He as [<-|He]; [apply Hhead; right; now left|].
  eapply Hrest. exact He.
Qed.

(** X9. In every world and from every state, whatever is cancelled or
    fails, an event of a run of [refreshAllQuotas] other than the two
    opening requests belongs to one of the four providers, and to one that
    selects at least one file of the list just fetched; a quota fetch is
    only ever issued for a file of that list that the provider selects. *)
Theorem X9_fetches_only_for_matching_files (w : World) (self : nat) (s : Page)
    (e : Event) :
  In e (snd (run w (refreshAllQuotas self) s)) ->
  e = EvFetchConfigYaml \/ e = EvList \/
  exists (data : option ListResponse) (j : nat) (config : QuotaConfig Data QS),
    list_ w = Resolved data /\
    configs !! j = Some config /\
    providerOf e = Some j /\
    List.filter (filterFn config) (filesOrEmpty data) <> [] /\
    (forall f : AuthFileItem,
        e = EvFetchQuota j f -> In f (filesOrEmpty data) /\ filterFn config f = true).
Proof.
  intros He.
  destruct (refresh_shape w self s) as (s' & tr & Hrun & Hshape).
  rewrite Hrun in He. cbn [snd] in He.
  destruct Hshape as [->|[->|[->|(data & sL & Hlist & ->)]]].
  - destruct He.
  - destruct He as [<-|[]]. now left.
  - destruct He as [<-|[<-|[]]]; [now left | right; now left].
  - destruct He as [<-|[<-|He]]; [now left | right; now left |].
    right. right.
    destruct (quotaLoop_events w self (filesOrEmpty data) configs 0 sL e He)
      as (j & config & Hl & Hp & Hne & Hf).
    exists data, j, config. cbn [Nat.add] in Hp, Hf.
    split; [exact Hlist|]. split; [exact Hl|]. split; [exact Hp|]. split; [exact Hne|].
    intros f E. apply filter_In. now apply Hf.
Qed.

(** *** Refreshing twice *)

(** The entry the merge leaves under the name of a file does not depend on
    the map it starts from. *)
Lemma mergeResults_decided (config : QuotaConfig Data QS) (fs : list AuthFileItem)
    (out : AuthFileItem -> Outcome Data) (m1 m2 : gmap string QS) (n : string) :
  In n (map name fs) ->
  mergeResults t config (map (fun f => resultOf t f (out f)) fs) m1 !! n
  = mergeResults t config (map (fun f => resultOf t f (out f)) fs) m2 !! n.
Proof.
  unfold mergeResults. revert m1 m2.
  induction fs as [|g fs IH] using rev_ind; intros m1 m2 Hn; [destruct Hn|].
  rewrite map_app, !fold_left_app. cbn [map fold_left].
  destruct (decide (name g = n)) as [E|E].
  - unfold resultOf. destruct (out g); rewrite E, !lookup_insert_eq; reflexivity.
  - assert (Hin : In n (map name fs)).
    { rewrite map_app in Hn. apply in_app_or in Hn.
      destruct Hn as [Hn|[Hn|[]]]; [exact Hn | contradiction]. }
    unfold resultOf. destruct (out g); rewrite !lookup_insert_ne by exact E;
      now apply IH.
Qed.

(** The turn of a provider, done again on its own result, changes nothing. *)
Lemma pass_again (config : QuotaConfig Data QS) (fs : list AuthFileItem)
    (out : AuthFileItem -> Outcome Data) (m : gmap string QS) :
  mergeResults t config (map (fun f => resultOf t f (out f)) fs)
    (markLoading config fs
       (mergeResults t config (map (fun f => resultOf t f (out f)) fs)
          (markLoading config fs m)))
  = mergeResults t config (map (fun f => resultOf t f (out f)) fs)
      (markLoading config fs m).
Proof.
  apply map_eq. intros n.
  destruct (in_dec string_dec n (map name fs)) as [Hin|Hout].
  - now apply mergeResults_decided.
  - rewrite (mergeResults_other Data QS t config fs out _ n Hout).
    rewrite (markLoading_other Data QS t config fs _ n Hout).
    reflexivity.
Qed.

(** X15. Refreshing is idempotent: when a refresh that nothing interrupts
    is followed by another one in which every request settles the same way
    (one state map per provider), the second leaves [files], [error],
    [loading], [refreshingAll], the abort reference and every quota map
    exactly as the first left them. *)
Theorem X15_refresh_twice (w : World) (self self' : nat) (s : Page) :
  refreshingAll s = false ->
  connectionStatus s = "connected" ->
  unmountDuring w = None ->
  NoDup (map storeSetter configs) ->
  let s1 := snd (fst (run w (refreshAllQuotas self) s)) in
  let s2 := snd (fst (run w (refreshAllQuotas self') s1)) in
  files s2 = files s1 /\
  error s2 = error s1 /\
  loading s2 = loading s1 /\
  refreshingAll s2 = refreshingAll s1 /\
  refreshAllAbortRef s2 = refreshAllAbortRef s1 /\
  forall setter : string, quotaOf s2 setter = quotaOf s1 setter.
Proof.
  intros Hr Hc Hcalm Hnd s1 s2.
  destruct (refresh_calm_reopens w self s Hr Hc Hcalm) as [Hr1 Hc1].
  fold s1 in Hr1, Hc1.
  subst s2. rewrite (refresh_calm w self' s1 Hr1 Hc1 Hcalm).
  subst s1. rewrite (refresh_calm w self s Hr Hc Hcalm).
  destruct (list_ w) as [data|err]; cbn [fst snd].
  - set (fl := filesOrEmpty data).
    set (X := setFiles fl (configured w self s)).
    set (s1 := setAbortRef None (setRefreshingAll false (loopPage t w 0 configs fl X))).
    set (X' := setFiles fl (configured w self' s1)).
    destruct (loopPage_frame w fl configs 0 X) as (_ & F2 & F3 & F4 & _).
    destruct (loopPage_frame w fl configs 0 X') as (_ & G2 & G3 & G4 & _).
    cbn -[loopPage] in F2, F3, F4, G2, G3, G4 |- *.
    rewrite G2, G3, G4, F2, F3, F4.
    split; [subst X X'; reflexivity|].
    split; [subst X X'; destruct (fetchConfigYaml w); reflexivity|].
    split; [subst X X' s1; destruct (fetchConfigYaml w); cbn -[loopPage];
            rewrite ?F3; reflexivity|].
    split; [reflexivity|]. split; [reflexivity|].
    intros setter.
    change (quotaOf (loopPage t w 0 configs fl X') setter
            = quotaOf (loopPage t w 0 configs fl X) setter).
    assert (HX' : forall k, quotaOf X' k = quotaOf (loopPage t w 0 configs fl X) k).
    { intros k. subst X' s1. destruct (fetchConfigYaml w); reflexivity. }
    destruct (in_dec string_dec setter (map storeSetter configs)) as [Hin|Hout].
    + apply in_map_iff in Hin. destruct Hin as (config & <- & Hin).
      apply list_elem_of_In, list_elem_of_lookup in Hin. destruct Hin as [N Hlook].
      rewrite !(quotaOf_loopPage_own w fl configs Hnd 0 N config _ Hlook).
      rewrite !quotaOf_passPage_own, HX'.
      rewrite (quotaOf_loopPage_own w fl configs Hnd 0 N config _ Hlook).
      rewrite quotaOf_passPage_own.
      destruct (Nat.eqb (length (List.filter (filterFn config) fl)) 0); [reflexivity|].
      apply pass_again.
    + rewrite !quotaOf_loopPage_other by exact Hout. rewrite HX'.
      now rewrite quotaOf_loopPage_other by exact Hout.
  - split; [destruct (fetchConfigYaml w); reflexivity|].
    split; [reflexivity|].
    split; [destruct (fetchConfigYaml w); reflexivity|].
    split; [reflexivity|]. split; [reflexivity|].
    intros setter. destruct (fetchConfigYaml w); reflexivity.
Qed.

(** *** The header refresh and the first effect *)

Lemma ws_files (w : World) (p : AwaitPoint) (s : Page) :
  files (whileSuspended w p s) = files s.
Proof. apply whileSuspended_frame. Qed.

Lemma ws_loading (w : World) (p : AwaitPoint) (s : Page) :
  loading (whileSuspended w p s) = loading s.
Proof. apply whileSuspended_frame. Qed.

Lemma ws_error (w : World) (p : AwaitPoint) (s : Page) :
  error (whileSuspended w p s) = error s.
Proof. apply whileSuspended_frame. Qed.

Lemma ws_refreshingAll (w : World) (p : AwaitPoint) (s : Page) :
  refreshingAll (whileSuspended w p s) = refreshingAll s.
Proof. apply whileSuspended_frame. Qed.

Lemma ws_quotaStore (w : World) (p : AwaitPoint) (s : Page) :
  quotaStore (whileSuspended w p s) = quotaStore s.
Proof. apply whileSuspended_frame. Qed.

Lemma ws_connectionStatus (w : World) (p : AwaitPoint) (s : Page) :
  connectionStatus (whileSuspended w p s) = connectionStatus s.
Proof. apply whileSuspended_frame. Qed.

(** X10. The promise of [handleHeaderRefresh] always resolves, in every
    world and whichever of its two requests settles first, and [loading] is
    cleared by then. [files] is the fetched list when the list request
    resolved and is unchanged otherwise. [error] is order-independent in
    all cases but one: with the list resolved it is the message of the
    configuration failure, if any, and empty otherwise; with the list
    rejected with a non-empty message it is that message; only when the
    list failure has an empty message and the configuration fails too does
    the order show, [error] being empty if the configuration settled first
    and the configuration message if it settled last. *)
Theorem X10_header_refresh (w : World) (configFirst : bool) (s : Page) :
  exists s' : Page,
    handleHeaderRefresh w configFirst s = (Some (Resolved tt), s') /\
    loading s' = false /\
    files s' = match list_ w with
               | Resolved data => filesOrEmpty data
               | Rejected _ => files s
               end /\
    quotaStore s' = quotaStore s /\
    refreshingAll s' = refreshingAll s /\
    (forall data : option ListResponse,
        list_ w = Resolved data ->
        error s' = match fetchConfigYaml w with
                   | Resolved _ => ""
                   | Rejected e => refreshFailed e
                   end) /\
    (forall err : Thrown,
        list_ w = Rejected err -> refreshFailed err <> "" ->
        error s' = refreshFailed err) /\
    (forall err e : Thrown,
        list_ w = Rejected err -> refreshFailed err = "" ->
        fetchConfigYaml w = Rejected e ->
        error s' = if configFirst then "" else refreshFailed e).
Proof.
  unfold Lifecycle.handleHeaderRefresh, startBoth.
  destruct configFirst, (fetchConfigYaml w) as [[]|e] eqn:Hcfg,
    (list_ w) as [data|err] eqn:Hlist;
    cbn -[whileSuspended]; rewrite ?Hcfg, ?Hlist; cbn -[whileSuspended];
    (eexists; split; [reflexivity|]);
    repeat (cbn -[whileSuspended];
            rewrite ?ws_files, ?ws_loading, ?ws_error, ?ws_refreshingAll, ?ws_quotaStore);
    (do 4 (split; [reflexivity|])); (split; [|split]).
  all: try (intros; discriminate).
  all: try (intros d [= <-]; reflexivity).
  all: try (intros x [= <-] Hx; unfold or_else;
            match goal with
            | |- context [String.eqb ?a ""] => destruct (String.eqb_spec a "")
            end; congruence).
  all: try (intros x y [= <-] Hx [= <-]; unfold or_else; rewrite ?Hx; reflexivity).
  all: try (intros x [= <-]; reflexivity).
Qed.

(** X11. At the first render [loading] is set, so the refresh button is
    disabled. Once the two requests of the first effect have settled, in
    either order and whether they failed or not, [loading] is cleared,
    [files] is the fetched list (empty when the list request failed), and
    the refresh button is enabled exactly when the page is connected. *)
Theorem X11_first_load (w : World) (filesFirst : bool) (status : string)
    (store : gmap string (gmap string QS)) :
  btn_disabled (refreshButton (render (initialPage status store))) = true /\
  loading (mountEffect w filesFirst (initialPage status store)) = false /\
  files (mountEffect w filesFirst (initialPage status store))
  = match list_ w with
    | Resolved data => filesOrEmpty data
    | Rejected _ => []
    end /\
  btn_disabled (refreshButton (render (mountEffect w filesFirst (initialPage status store))))
  = negb (String.eqb status "connected").
Proof.
  split; [cbn; apply orb_true_r|].
  unfold Lifecycle.mountEffect, startBoth.
  destruct filesFirst, (fetchConfigYaml w) as [[]|e] eqn:Hcfg,
    (list_ w) as [data|err] eqn:Hlist;
    cbn -[whileSuspended]; rewrite ?Hcfg, ?Hlist;
    unfold disableControls;
    repeat (cbn -[whileSuspended];
            rewrite ?ws_files, ?ws_loading, ?ws_refreshingAll, ?ws_connectionStatus);
    rewrite ?orb_false_r; repeat split; reflexivity.
Qed.

(** *** The refresh button and the guard *)

(** X12. Whenever the refresh button is enabled, a click on it does start
    a refresh: [refreshAllQuotas] passes its guard, sets [refreshingAll],
    empties [error], installs its abort closure and suspends on the
    configuration request; and the page rendered meanwhile has the button
    disabled, showing its spinner and not its icon, and no error box. *)
Theorem X12_enabled_button_starts_refresh (self : nat) (s : Page) :
  btn_disabled (refreshButton (render s)) = false ->
  exists k : Outcome unit -> Task unit,
    start (refreshAllQuotas self) s = (OnConfigYaml k, entered self s) /\
    refreshingAll (entered self s) = true /\
    refreshAllAbortRef (entered self s) = Some self /\
    btn_disabled (refreshButton (render (entered self s))) = true /\
    btn_loading (refreshButton (render (entered self s))) = true /\
    btn_icon (refreshButton (render (entered self s))) = false /\
    errorBox (render (entered self s)) = None.
Proof.
  intros Hen. cbn in Hen.
  apply orb_false_elim in Hen. destruct Hen as [Hen Hl].
  apply orb_false_elim in Hen. destruct Hen as [Hd Hr].
  unfold QuotaPage.refreshAllQuotas. cbn [read bind start]. rewrite Hr, Hd.
  cbn [orb]. eexists. split; [reflexivity|].
  cbn. rewrite orb_true_r. repeat split; reflexivity.
Qed.

(** The button is disabled in every state in which the guard of
    [refreshAllQuotas] would stop the callback. *)
Lemma guard_implies_disabled (s : Page) :
  refreshingAll s || disableControls s = true ->
  btn_disabled (refreshButton (render s)) = true.
Proof.
  intros H. cbn. apply orb_true_iff in H. destruct H as [H|H]; rewrite H.
  - now rewrite orb_true_r.
  - reflexivity.
Qed.

End WholeRuns.

(** ** CollapsibleContent: thresholds and sizes *)

Section WidgetEdges.

Import Js CollapsibleWidget.

Variable t : string -> string.
Variable styles : string -> string.
Variable JsValue : Type.
Variable JSON_parse : string -> Outcome JsValue.
Variable JSON_stringify : JsValue -> Z -> string.

Local Abbreviation render := (render t styles JsValue JSON_parse JSON_stringify).

Lemma substring_zero (s : string) : String.substring 0 0 s = "".
Proof. destruct s; reflexivity. Qed.

(** X13. With a threshold of zero or less, every content that is not
    rendered as it is (every non-empty one, and even the empty one below
    zero) is collapsed to the three dots alone: none of its characters is
    shown. *)
Theorem X13_nonpositive_threshold (content : string) (maxPreviewLength : Z)
    (className : string) :
  maxPreviewLength <= 0 ->
  maxPreviewLength < Z.of_nat (String.length content) ->
  exists (wrapper : string) (toggle : Button),
    render content maxPreviewLength className initialIsExpanded
    = Collapsed wrapper "..." toggle.
Proof.
  intros Hmax Hlt. unfold initialIsExpanded.
  rewrite (render_long t styles JsValue JSON_parse JSON_stringify _ _ _ _ Hlt).
  rewrite (js_substring_shorter _ _ Hlt).
  replace (Z.to_nat maxPreviewLength) with 0%nat by lia.
  rewrite substring_zero. eexists _, _. reflexivity.
Qed.

(** The number of KB shown grows with the length. *)
Lemma ceil_div_monotone (n m d : Z) :
  0 < d -> n <= m -> ceil_div n d <= ceil_div m d.
Proof.
  intros Hd Hnm.
  pose proof (ceil_div_spec n d Hd) as [Hn _].
  pose proof (ceil_div_spec m d Hd) as [_ Hm].
  nia.
Qed.

(** X14. The size shown on the toggle of a collapsed content is never
    below what the content needs: a non-empty content of at most 1024
    characters is labelled 1KB, never 0KB, and a longer content is never
    labelled with fewer KB than a shorter one. *)
Theorem X14_size_label (content : string) (maxPreviewLength : Z) (className : string) :
  maxPreviewLength < Z.of_nat (String.length content) ->
  (0 < Z.of_nat (String.length content) <= 1024 ->
   exists (wrapper shown : string) (toggle : Button),
     render content maxPreviewLength className initialIsExpanded
     = Collapsed wrapper shown toggle /\
     label toggle = t "logs.expand" +:+ " (1KB)") /\
  (forall other : string,
      (String.length content <= String.length other)%nat ->
      ceil_div (Z.of_nat (String.length content)) 1024
      <= ceil_div (Z.of_nat (String.length other)) 1024).
Proof.
  intros Hlt. split.
  - intros Hlen. unfold initialIsExpanded.
    rewrite (render_long t styles JsValue JSON_parse JSON_stringify _ _ _ _ Hlt).
    eexists _, _, _. split; [reflexivity|]. cbn [label].
    assert (E : ceil_div (Z.of_nat (String.length content)) 1024 = 1).
    { pose proof (ceil_div_spec (Z.of_nat (String.length content)) 1024) as H.
      lia. }
    rewrite E. reflexivity.
  - intros other Hle. apply ceil_div_monotone; lia.
Qed.

End WidgetEdges.

(** ** The further statements on the sample page *)

Section OnMoreSamples.

Import Js QuotaPage Lifecycle Samples MoreSamples.

Local Abbreviation fetched := (Some {| resp_files := Some listing |}).
Local Abbreviation refresh := (Samples.refreshAllQuotas).

Lemma X2_refresh_finishes_clean_witness :
  refreshingAll (snd (fst (run failing (refresh 1) stale))) = false /\
  refreshAllAbortRef (snd (fst (run failing (refresh 1) stale))) = None /\
  teardown (snd (fst (run failing (refresh 1) stale)))
  = snd (fst (run failing (refresh 1) stale)) /\
  loading (snd (fst (run failing (refresh 1) stale))) = loading stale /\
  connectionStatus (snd (fst (run failing (refresh 1) stale))) = connectionStatus stale.
Proof.
  apply (X2_refresh_finishes_clean Z QuotaState Samples.t
           ANTIGRAVITY_CONFIG CODEX_CONFIG GEMINI_CLI_CONFIG CLAUDE_CONFIG
           failing 1%nat stale); reflexivity.
Defined.

Lemma X3_refresh_list_failure_witness :
  exists s' : Page QuotaState,
    run failing (refresh 1) stale = (Resolved tt, s', [EvFetchConfigYaml; EvList]) /\
    error s' = errorMessageOf Samples.t "notification.refresh_failed" offline /\
    files s' = files stale /\
    quotaStore s' = quotaStore stale /\
    refreshingAll s' = false.
Proof.
  apply (X3_refresh_list_failure Z QuotaState Samples.t
           ANTIGRAVITY_CONFIG CODEX_CONFIG GEMINI_CLI_CONFIG CLAUDE_CONFIG
           failing 1%nat stale offline); reflexivity.
Defined.

Lemma X4_refresh_goes_on_after_config_failure_witness :
  files (snd (fst (run configDown (refresh 1) stale))) = filesOrEmpty fetched /\
  error (snd (fst (run configDown (refresh 1) stale)))
  = match fetchConfigYaml configDown with
    | Resolved _ => ""
    | Rejected err => errorMessageOf Samples.t "notification.refresh_failed" err
    end.
Proof.
  apply (X4_refresh_goes_on_after_config_failure Z QuotaState Samples.t
           ANTIGRAVITY_CONFIG CODEX_CONFIG GEMINI_CLI_CONFIG CLAUDE_CONFIG
           configDown 1%nat stale fetched); reflexivity.
Defined.

Lemma X5_unmount_during_config_witness :
  exists s' : Page QuotaState,
    run unmountedAtConfig (refresh 1) stale = (Resolved tt, s', [EvFetchConfigYaml]) /\
    files s' = files stale /\
    quotaStore s' = quotaStore stale /\
    refreshingAll s' = true /\
    refreshAllAbortRef s' = Some 1%nat.
Proof.
  apply (X5_unmount_during_config Z QuotaState Samples.t
           ANTIGRAVITY_CONFIG CODEX_CONFIG GEMINI_CLI_CONFIG CLAUDE_CONFIG
           unmountedAtConfig 1%nat stale); reflexivity.
Defined.

Lemma X6_unmount_during_list_witness :
  exists s' : Page QuotaState,
    run unmountedAtList (refresh 1) stale
    = (Resolved tt, s', [EvFetchConfigYaml; EvList]) /\
    files s' = files stale /\
    quotaStore s' = quotaStore stale /\
    refreshingAll s' = true /\
    refreshAllAbortRef s' = Some 1%nat /\
    (forall err : Thrown,
        list_ unmountedAtList = Rejected err ->
        error s' = errorMessageOf Samples.t "notification.refresh_failed" err) /\
    (forall data : option ListResponse,
        list_ unmountedAtList = Resolved data ->
        error s' = match fetchConfigYaml unmountedAtList with
                   | Resolved _ => ""
                   | Rejected e => errorMessageOf Samples.t "notification.refresh_failed" e
                   end).
Proof.
  apply (X6_unmount_during_list Z QuotaState Samples.t
           ANTIGRAVITY_CONFIG CODEX_CONFIG GEMINI_CLI_CONFIG CLAUDE_CONFIG
           unmountedAtList 1%nat stale); reflexivity.
Defined.

Lemma X7_refresh_trace_witness :
  snd (run calm (refresh 1) idle)
  = (EvFetchConfigYaml :: EvList ::
     passTrace 0 ANTIGRAVITY_CONFIG (filesOrEmpty fetched) ++
     passTrace 1 CODEX_CONFIG (filesOrEmpty fetched) ++
     passTrace 2 GEMINI_CLI_CONFIG (filesOrEmpty fetched) ++
     passTrace 3 CLAUDE_CONFIG (filesOrEmpty fetched))%list.
Proof.
  apply (X7_refresh_trace Z QuotaState Samples.t
           ANTIGRAVITY_CONFIG CODEX_CONFIG GEMINI_CLI_CONFIG CLAUDE_CONFIG
           calm 1%nat idle fetched); reflexivity.
Defined.

Lemma X8_provider_map_after_refresh_witness :
  quotaOf (snd (fst (run calm (refresh 1) stale))) (storeSetter CODEX_CONFIG)
  = if Nat.eqb (length (List.filter (filterFn CODEX_CONFIG) (filesOrEmpty fetched))) 0
    then quotaOf stale (storeSetter CODEX_CONFIG)
    else
      mergeResults Samples.t CODEX_CONFIG
        (map (fun f => resultOf Samples.t f (fetchQuota calm 1 f))
           (List.filter (filterFn CODEX_CONFIG) (filesOrEmpty fetched)))
        (markLoading CODEX_CONFIG
           (List.filter (filterFn CODEX_CONFIG) (filesOrEmpty fetched))
           (quotaOf stale (storeSetter CODEX_CONFIG))).
Proof.
  apply (X8_provider_map_after_refresh Z QuotaState Samples.t
           ANTIGRAVITY_CONFIG CODEX_CONFIG GEMINI_CLI_CONFIG CLAUDE_CONFIG
           calm 1%nat stale fetched 1%nat CODEX_CONFIG); try reflexivity.
  apply (@bool_decide_unpack _ (NoDup_dec _)). vm_compute. exact I.
Defined.

Lemma X9_fetches_only_for_matching_files_witness :
  EvFetchQuota 1 a_json = EvFetchConfigYaml \/ EvFetchQuota 1 a_json = EvList \/
  exists (data : option ListResponse) (j : nat) (config : QuotaConfig Z QuotaState),
    list_ calm = Resolved data /\
    QuotaPage.configs Z QuotaState
      ANTIGRAVITY_CONFIG CODEX_CONFIG GEMINI_CLI_CONFIG CLAUDE_CONFIG !! j = Some config /\
    providerOf (EvFetchQuota 1 a_json) = Some j /\
    List.filter (filterFn config) (filesOrEmpty data) <> [] /\
    (forall f : AuthFileItem,
        EvFetchQuota 1 a_json = EvFetchQuota j f ->
        In f (filesOrEmpty data) /\ filterFn config f = true).
Proof.
  apply (X9_fetches_only_for_matching_files Z QuotaState Samples.t
           ANTIGRAVITY_CONFIG CODEX_CONFIG GEMINI_CLI_CONFIG CLAUDE_CONFIG
           calm 1%nat idle (EvFetchQuota 1 a_json)).
  vm_compute. tauto.
Defined.

Lemma X12_enabled_button_starts_refresh_witness :
  exists k : Outcome unit -> Task Z QuotaState unit,
    start (refresh 1) idle
    = (OnConfigYaml k,
       installAbort 1 (setError (fun _ => "") (setRefreshingAll true idle))) /\
    refreshingAll (installAbort 1 (setError (fun _ => "") (setRefreshingAll true idle)))
    = true /\
    refreshAllAbortRef
      (installAbort 1 (setError (fun _ => "") (setRefreshingAll true idle)))
    = Some 1%nat /\
    btn_disabled
      (refreshButton
         (Lifecycle.render Z QuotaState Samples.t
            ANTIGRAVITY_CONFIG CODEX_CONFIG GEMINI_CLI_CONFIG CLAUDE_CONFIG
            (installAbort 1 (setError (fun _ => "") (setRefreshingAll true idle)))))
    = true /\
    btn_loading
      (refreshButton
         (Lifecycle.render Z QuotaState Samples.t
            ANTIGRAVITY_CONFIG CODEX_CONFIG GEMINI_CLI_CONFIG CLAUDE_CONFIG
            (installAbort 1 (setError (fun _ => "") (setRefreshingAll true idle)))))
    = true /\
    btn_icon
      (refreshButton
         (Lifecycle.render Z QuotaState Samples.t
            ANTIGRAVITY_CONFIG CODEX_CONFIG GEMINI_CLI_CONFIG CLAUDE_CONFIG
            (installAbort 1 (setError (fun _ => "") (setRefreshingAll true idle)))))
    = false /\
    errorBox
      (Lifecycle.render Z QuotaState Samples.t
         ANTIGRAVITY_CONFIG CODEX_CONFIG GEMINI_CLI_CONFIG CLAUDE_CONFIG
         (installAbort 1 (setError (fun _ => "") (setRefreshingAll true idle))))
    = None.
Proof.
  apply (X12_enabled_button_starts_refresh Z QuotaState Samples.t
           ANTIGRAVITY_CONFIG CODEX_CONFIG GEMINI_CLI_CONFIG CLAUDE_CONFIG
           1%nat idle).
  reflexivity.
Defined.

Lemma X13_nonpositive_threshold_witness :
  exists (wrapper : string) (toggle : CollapsibleWidget.Button),
    CollapsibleWidget.render Samples.t Samples.styles Samples.Literal
      Samples.JSON_parse Samples.JSON_stringify "abc" (-1) "log"
      CollapsibleWidget.initialIsExpanded
    = CollapsibleWidget.Collapsed wrapper "..." toggle.
Proof.
  apply (X13_nonpositive_threshold Samples.t Samples.styles Samples.Literal
           Samples.JSON_parse Samples.JSON_stringify "abc" (-1) "log").
  - lia.
  - simpl. lia.
Defined.

Lemma X14_size_label_witness :
  (0 < Z.of_nat (String.length (xs 500)) <= 1024 ->
   exists (wrapper shown : string) (toggle : CollapsibleWidget.Button),
     CollapsibleWidget.render Samples.t Samples.styles Samples.Literal
       Samples.JSON_parse Samples.JSON_stringify (xs 500) 200 "log"
       CollapsibleWidget.initialIsExpanded
     = CollapsibleWidget.Collapsed wrapper shown toggle /\
     CollapsibleWidget.label toggle = Samples.t "logs.expand" +:+ " (1KB)") /\
  (forall other : string,
      (String.length (xs 500) <= String.length other)%nat ->
      Js.ceil_div (Z.of_nat (String.length (xs 500))) 1024
      <= Js.ceil_div (Z.of_nat (String.length other)) 1024).
Proof.
  apply (X14_size_label Samples.t Samples.styles Samples.Literal
           Samples.JSON_parse Samples.JSON_stringify (xs 500) 200 "log").
  vm_compute. reflexivity.
Defined.

Lemma X15_refresh_twice_witness :
  let s1 := snd (fst (run calm (refresh 1) stale)) in
  let s2 := snd (fst (run calm (refresh 2) s1)) in
  files s2 = files s1 /\
  error s2 = error s1 /\
  loading s2 = loading s1 /\
  refreshingAll s2 = refreshingAll s1 /\
  refreshAllAbortRef s2 = refreshAllAbortRef s1 /\
  forall setter : string, quotaOf s2 setter = quotaOf s1 setter.
Proof.
  apply (X15_refresh_twice Z QuotaState Samples.t
           ANTIGRAVITY_CONFIG CODEX_CONFIG GEMINI_CLI_CONFIG CLAUDE_CONFIG
           calm 1%nat 2%nat stale); try reflexivity.
  apply (@bool_decide_unpack _ (NoDup_dec _)). vm_compute. exact I.
Defined.

End OnMoreSamples.
